(** * wise_api.client: the Wise API client, its SCA replay and its paginator

    A shallow embedding of [src/wise_api/client.py].  The client talks to
    the network through a [requests.Session]; here the session is a
    transport that maps the server's state and a request to a reply and a
    new server state, and every request the client sends is appended to a
    log.  Python exceptions are the [Err] branch of a result; the client's
    methods run in a state-and-error monad over the world. *)

From stdpp Require Import gmap strings list fin_maps pretty.

Set Warnings "-register-all".
Open Scope string_scope.
Open Scope Z_scope.

(** ** Python values *)

(** The values [json.loads] produces ([float] left out), which are also
    the values a query parameter can hold.  A [dict] keeps its items in
    insertion order; its keys are distinct. *)
Inductive value : Type :=
  | VNone
  | VBool (b : bool)
  | VInt (z : Z)
  | VStr (s : string)
  | VList (l : list value)
  | VDict (items : list (string * value)).

(** [bool(v)], as [if v:] and [if not v:] test it. *)
Definition truthy (v : value) : bool :=
  match v with
  | VNone => false
  | VBool b => b
  | VInt z => negb (z =? 0)
  | VStr s => negb (String.eqb s "")
  | VList l => match l with [] => false | _ => true end
  | VDict items => match items with [] => false | _ => true end
  end.

Fixpoint items_lookup (key : string) (items : list (string * value)) : option value :=
  match items with
  | [] => None
  | (k, v) :: rest => if String.eqb k key then Some v else items_lookup key rest
  end.

Fixpoint chars (s : string) : list value :=
  match s with
  | EmptyString => []
  | String c rest => VStr (String c EmptyString) :: chars rest
  end.

(** ** Responses, requests, exceptions *)

(** A [requests.Response] as the client observes it: [headers] is the
    case-insensitive dictionary's store, keyed by the lower-cased header
    name; [json] is what the [json()] method gives, [None] when the body
    does not decode; [content] is the raw body. *)
Record Response : Type := mkResponse {
  status_code : Z;
  headers : gmap string string;
  content : string;
  json : option value
}.

(** The arguments of one [session.get(url, headers=..., params=...)]. *)
Record Request : Type := mkRequest {
  url : string;
  req_headers : gmap string string;
  params : gmap string value
}.

Inductive exn : Type :=
  | WiseInvalidPublicKeyError (msg : string)
  | HTTPError (resp : Response)
  | KeyError (key : string)
  | JSONDecodeError
  | ValueError (msg : string)
  | AttributeError
  | TypeError
  | RequestException (msg : string).

Inductive result (A : Type) : Type :=
  | Ok (a : A)
  | Err (e : exn).
Arguments Ok {A} a.
Arguments Err {A} e.

(** What the transport gives back: a response, or a failure of the
    connection, which [requests] raises as a [RequestException]. *)
Inductive reply : Type :=
  | Replied (resp : Response)
  | Failed (msg : string).

(** ** The collaborators outside [client.py] *)

(** The remote server behind the session, [crypto.sign_approval_token]
    and [utils.zulu_time] are not part of [client.py]; the client is
    parametric in them. *)
Class Environment : Type := {
  Server : Type;
  serve : Server -> Request -> reply * Server;
  sign_approval_token : string -> string -> string;
  datetime : Type;
  zulu_time : datetime -> string
}.

Section Definitions.
Context `{Environment}.

(** The world a call runs in: the server, the requests sent so far
    (oldest first) and the [(key, token)] pairs signed so far. *)
Record World : Type := mkWorld {
  server : Server;
  requests : list Request;
  signed : list (string * string)
}.

Definition M (A : Type) : Type := World -> result A * World.

Definition ret {A} (a : A) : M A := fun w => (Ok a, w).
Definition raise {A} (e : exn) : M A := fun w => (Err e, w).
Definition bind {A B} (m : M A) (k : A -> M B) : M B :=
  fun w => match m w with
           | (Ok a, w') => k a w'
           | (Err e, w') => (Err e, w')
           end.

End Definitions.

Declare Scope client_scope.
Delimit Scope client_scope with client.
Notation "x <- m ;; k" := (bind m (fun x => k))
  (at level 100, m at next level, right associativity) : client_scope.
Notation "m ;;; k" := (bind m (fun _ => k))
  (at level 100, right associativity) : client_scope.
Open Scope client_scope.

Section Client.
Context `{Environment}.

(** [session.get]: the request is logged and handed to the server. *)
Definition session_get (u : string) (hs : gmap string string)
    (ps : gmap string value) : M Response :=
  fun w =>
    let req := mkRequest u hs ps in
    let '(rep, srv) := serve (server w) req in
    let w' := mkWorld srv ((requests w ++ [req])%list) (signed w) in
    match rep with
    | Replied resp => (Ok resp, w')
    | Failed msg => (Err (RequestException msg), w')
    end.

(** The call of [sign_approval_token], recorded in the world. *)
Definition sign (key token : string) : M string :=
  fun w => (Ok (sign_approval_token key token),
            mkWorld (server w) (requests w) ((signed w ++ [(key, token)])%list)).

(** [resp.headers[key]] *)
Definition headers_getitem (resp : Response) (key : string) : M string :=
  match headers resp !! key with
  | Some v => ret v
  | None => raise (KeyError key)
  end.

(** [resp.raise_for_status()] of [requests]: an [HTTPError] for a client
    error (4xx) or a server error (5xx), nothing otherwise. *)
Definition raise_for_status (resp : Response) : M unit :=
  if (400 <=? status_code resp) && (status_code resp <? 600)
  then raise (HTTPError resp)
  else ret tt.

(** [resp.json()] *)
Definition resp_json (resp : Response) : M value :=
  match json resp with
  | Some v => ret v
  | None => raise JSONDecodeError
  end.

Definition sca_required (resp : Response) : bool :=
  (status_code resp =? 403)
  && bool_decide (headers resp !! "x-2fa-approval-result" = Some "REJECTED").

Record APIClient : Type := mkAPIClient {
  api_key : string;
  signing_key : string;
  production : bool
}.

Definition sandbox_url : string := "https://api.sandbox.transferwise.tech".
Definition production_url : string := "https://api.transferwise.com".

Definition base_url (self : APIClient) : string :=
  if negb (production self) then sandbox_url else production_url.

Definition sca_rejected_msg : string :=
  "Strong Customer Authentication has been rejected.".

Definition get (self : APIClient) (path : string)
    (params : option (gmap string value)) : M value :=
  let url := base_url self +:+ path in
  let headers : gmap string string :=
    {[ "authorization" := "Bearer " +:+ api_key self ]} in
  let params := match params with None => ∅ | Some ps => ps end in
  resp <- session_get url headers params ;;
  resp <- (if sca_required resp then
             token <- headers_getitem resp "x-2fa-approval" ;;
             signature <- sign (signing_key self) token ;;
             let headers := <["x-2fa-approval" := token]> headers in
             let headers := <["x-signature" := signature]> headers in
             resp <- session_get url headers params ;;
             if status_code resp =? 400
             then raise (WiseInvalidPublicKeyError sca_rejected_msg)
             else ret resp
           else ret resp) ;;
  raise_for_status resp ;;;
  resp_json resp.

(** ** The endpoints *)

(** [WiseId = int | str], and how an f-string and a query parameter
    render it. *)
Inductive WiseId : Type :=
  | IdInt (z : Z)
  | IdStr (s : string).

Definition format_id (i : WiseId) : string :=
  match i with
  | IdInt z => pretty z
  | IdStr s => s
  end.

Definition id_value (i : WiseId) : value :=
  match i with
  | IdInt z => VInt z
  | IdStr s => VStr s
  end.

(** [Literal["pdf", "csv", "json"]] *)
Inductive statement_type : Type := pdf | csv | json_type.

Definition format_type (t : statement_type) : string :=
  match t with
  | pdf => "pdf"
  | csv => "csv"
  | json_type => "json"
  end.

Definition get_current_user (self : APIClient) : M value :=
  get self "/v1/me" None.

Definition get_user_profiles (self : APIClient) : M value :=
  get self "/v1/profiles" None.

Definition get_addresses (self : APIClient) : M value :=
  get self "/v1/addresses" None.

Definition get_borderless_accounts (self : APIClient) (profile_id : WiseId) : M value :=
  get self "/v1/borderless-accounts" (Some {[ "profileId" := id_value profile_id ]}).

Definition statement_params (currency : string) (start end_ : datetime)
    (compact : bool) : gmap string value :=
  <["type" := VStr (if compact then "COMPACT" else "FLAT")]>
    (<["currency" := VStr currency]>
      (<["intervalEnd" := VStr (zulu_time end_)]>
        {[ "intervalStart" := VStr (zulu_time start) ]})).

Definition get_balance_statement (self : APIClient) (profile_id balance_id : WiseId)
    (currency : string) (start end_ : datetime) (type : statement_type)
    (compact : bool) : M value :=
  get self
    ("/v1/profiles/" +:+ format_id profile_id +:+ "/balance-statements/"
       +:+ format_id balance_id +:+ "/statement." +:+ format_type type)
    (Some (statement_params currency start end_ compact)).

Definition get_borderless_account_statement (self : APIClient)
    (profile_id account_id : WiseId) (currency : string) (start end_ : datetime)
    (type : statement_type) (compact : bool) : M value :=
  get self
    ("/v3/profiles/" +:+ format_id profile_id +:+ "/borderless-accounts/"
       +:+ format_id account_id +:+ "/statement." +:+ format_type type)
    (Some (statement_params currency start end_ compact)).

Definition get_recipient_accounts (self : APIClient) (profile_id : WiseId) : M value :=
  get self "/v1/accounts" (Some {[ "profileId" := id_value profile_id ]}).

Definition get_recipient_account_by_id (self : APIClient) (account_id : WiseId) : M value :=
  get self ("/v1/accounts/" +:+ format_id account_id) None.

Definition get_transfer_by_id (self : APIClient) (transfer_id : WiseId) : M value :=
  get self ("/v1/transfers/" +:+ format_id transfer_id) None.

(** ** The activity paginator *)

(** [d.get(key, default)]: only a [dict] has the method. *)
Definition dict_get (d : value) (key : string) (default : value) : M value :=
  match d with
  | VDict items =>
      ret (match items_lookup key items with Some v => v | None => default end)
  | _ => raise AttributeError
  end.

(** The elements [for x in v] runs over: those of a list, the keys of a
    [dict], the characters of a [str]; other values are not iterable. *)
Definition py_iter (v : value) : M (list value) :=
  match v with
  | VList l => ret l
  | VDict items => ret (map (fun kv => VStr (fst kv)) items)
  | VStr s => ret (chars s)
  | _ => raise TypeError
  end.

(** [if s:] on a [str | None] *)
Definition nonempty (s : option string) : option string :=
  match s with
  | Some s => if String.eqb s "" then None else Some s
  | None => None
  end.

Definition set_if {A} (key : string) (f : A -> value) (a : option A)
    (ps : gmap string value) : gmap string value :=
  match a with
  | Some a => <[key := f a]> ps
  | None => ps
  end.

Definition size_error_msg : string := "Size must be between 1 and 100".

(** The keyword arguments of [get_activities]. *)
Record filters : Type := mkFilters {
  monetary_resource_type : option string;
  status : option string;
  since : option datetime;
  until : option datetime;
  size : option Z
}.

(** Lines 151-163: the fixed parameters, or the [ValueError]. *)
Definition activity_params (f : filters) : M (gmap string value) :=
  let params : gmap string value := ∅ in
  let params := set_if "monetaryResourceType" VStr (nonempty (monetary_resource_type f)) params in
  let params := set_if "status" VStr (nonempty (status f)) params in
  let params := set_if "since" (fun t => VStr (zulu_time t)) (since f) params in
  let params := set_if "until" (fun t => VStr (zulu_time t)) (until f) params in
  match size f with
  | Some size =>
      if negb ((1 <=? size) && (size <=? 100))
      then raise (ValueError size_error_msg)
      else ret (<["size" := VInt size]> params)
  | None => ret params
  end.

(** How a run of the generator stands: it returned, it raised, or it is
    still in its loop after the pages the fuel allowed. *)
Inductive ending : Type :=
  | Exhausted
  | Raised (e : exn)
  | Running.

Definition activities_path (profile_id : WiseId) : string :=
  "/v1/profiles/" +:+ format_id profile_id +:+ "/activities".

(** One turn of [while True] up to the [for] loop: the request for the
    page at [next_cursor] and the records it yields. *)
Definition fetch_page (self : APIClient) (profile_id : WiseId)
    (params : gmap string value) (next_cursor : value) : M (value * list value) :=
  let current_params :=
    if truthy next_cursor then <["nextCursor" := next_cursor]> params else params in
  response_data <- get self (activities_path profile_id) (Some current_params) ;;
  activities <- dict_get response_data "activities" (VList []) ;;
  items <- py_iter activities ;;
  ret (response_data, items).

(** The [while True] loop consumed to its end, at most [fuel] pages: the
    records yielded in order, how the run stands, and the world. *)
Fixpoint activities_loop (fuel : nat) (self : APIClient) (profile_id : WiseId)
    (params : gmap string value) (next_cursor : value) (w : World)
    : list value * ending * World :=
  match fuel with
  | O => ([], Running, w)
  | S fuel =>
      match fetch_page self profile_id params next_cursor w with
      | (Err e, w1) => ([], Raised e, w1)
      | (Ok (response_data, items), w1) =>
          match dict_get response_data "cursor" VNone w1 with
          | (Err e, w2) => (items, Raised e, w2)
          | (Ok next_cursor, w2) =>
              if negb (truthy next_cursor) then (items, Exhausted, w2)
              else
                let '(rest, e, w3) :=
                  activities_loop fuel self profile_id params next_cursor w2 in
                ((items ++ rest)%list, e, w3)
          end
      end
  end.

(** [list(client.get_activities(profile_id, ...))] cut at [fuel] pages.
    The body of a generator runs when it is first resumed, so the
    [ValueError] is the result of the run, not of the call that makes
    the generator. *)
Definition get_activities (fuel : nat) (self : APIClient) (profile_id : WiseId)
    (f : filters) (w : World) : list value * ending * World :=
  match activity_params f w with
  | (Err e, w1) => ([], Raised e, w1)
  | (Ok params, w1) => activities_loop fuel self profile_id params VNone w1
  end.

End Client.

(** ** The requests a call sends, and properties of the server *)

Section Requests.
Context `{Environment}.

Definition authorization (self : APIClient) : gmap string string :=
  {[ "authorization" := "Bearer " +:+ api_key self ]}.

Definition params_of (params : option (gmap string value)) : gmap string value :=
  match params with None => ∅ | Some ps => ps end.

(** The request [get] sends first. *)
Definition first_request (self : APIClient) (path : string)
    (params : option (gmap string value)) : Request :=
  mkRequest (base_url self +:+ path) (authorization self) (params_of params).

(** The request [get] sends again after a challenge carrying [token]. *)
Definition replay_request (self : APIClient) (path : string)
    (params : option (gmap string value)) (token : string) : Request :=
  mkRequest (base_url self +:+ path)
    (<["x-signature" := sign_approval_token (signing_key self) token]>
      (<["x-2fa-approval" := token]> (authorization self)))
    (params_of params).

(** Lines 60-62, what [get] does with the response it ends on. *)
Definition conclude (resp : Response) : M value :=
  raise_for_status resp ;;; resp_json resp.

(** The world after [get] sent [sent] and signed [tokens]. *)
Definition after (w : World) (s : Server) (sent : list Request)
    (tokens : list (string * string)) : World :=
  mkWorld s (requests w ++ sent)%list (signed w ++ tokens)%list.

(** The cursor field of a decoded page, [None] when the key is absent. *)
Definition cursor_of (items : list (string * value)) : value :=
  match items_lookup "cursor" items with Some v => v | None => VNone end.

(** The parameters of the request for the page at [next_cursor]. *)
Definition page_params (params : gmap string value) (next_cursor : value)
    : gmap string value :=
  if truthy next_cursor then <["nextCursor" := next_cursor]> params else params.

(** The request the paginator sends for the page at [next_cursor]. *)
Definition page_request (self : APIClient) (profile_id : WiseId)
    (params : gmap string value) (next_cursor : value) : Request :=
  first_request self (activities_path profile_id)
    (Some (page_params params next_cursor)).

(** The server's chain of cursors comes to an end: the [n]-th page
    fetched from [next_cursor] on is the first whose cursor is absent or
    empty. *)
Inductive chain_ends (self : APIClient) (profile_id : WiseId)
    (params : gmap string value) : value -> World -> nat -> Prop :=
  | chain_last next_cursor w items recs w1 :
      fetch_page self profile_id params next_cursor w
        = (Ok (VDict items, recs), w1) ->
      truthy (cursor_of items) = false ->
      chain_ends self profile_id params next_cursor w 1
  | chain_more next_cursor w items recs w1 n :
      fetch_page self profile_id params next_cursor w
        = (Ok (VDict items, recs), w1) ->
      truthy (cursor_of items) = true ->
      chain_ends self profile_id params (cursor_of items) w1 n ->
      chain_ends self profile_id params next_cursor w (S n).

(** A server that answers every request with a page that decodes, whose
    records can be iterated, and whose cursor is never empty. *)
Definition endless_server : Prop :=
  forall (s : Server) (req : Request),
    exists resp s' items recs,
      serve s req = (Replied resp, s')
      /\ status_code resp = 200
      /\ json resp = Some (VDict items)
      /\ items_lookup "activities" items = Some (VList recs)
      /\ truthy (cursor_of items) = true.

End Requests.

(** ** The paginator as a generator *)

Section Generator.
Context `{Environment}.


(** Where the generator object of [get_activities] stands between two
    resumptions: created and not yet started (the body has not run, not
    even the validation); suspended at the [yield], with the records of
    the current page still to come and the page's body; finished, by
    return or by an exception.  [GenFetching] is the top of the [while]
    loop, where a resumption that ran out of fuel is left. *)
Inductive gen_state : Type :=
  | GenCreated (f : filters)
  | GenSuspended (params : gmap string value) (pending : list value)
      (response_data : value)
  | GenFetching (params : gmap string value) (next_cursor : value)
  | GenFinished.

(** What one [next(gen)] gives. *)
Inductive gen_event : Type :=
  | Yielded (v : value)
  | StopIteration
  | Raises (e : exn)
  | Busy.

(** From the top of the [while] loop to the next [yield]: pages without
    records are passed over, at most [fuel] pages are requested. *)
Fixpoint gen_pages (fuel : nat) (self : APIClient) (profile_id : WiseId)
    (params : gmap string value) (next_cursor : value) (w : World)
    : gen_event * gen_state * World :=
  match fuel with
  | O => (Busy, GenFetching params next_cursor, w)
  | S fuel =>
      match fetch_page self profile_id params next_cursor w with
      | (Err e, w1) => (Raises e, GenFinished, w1)
      | (Ok (response_data, items), w1) =>
          match items with
          | activity :: pending =>
              (Yielded activity, GenSuspended params pending response_data, w1)
          | [] =>
              match dict_get response_data "cursor" VNone w1 with
              | (Err e, w2) => (Raises e, GenFinished, w2)
              | (Ok next_cursor, w2) =>
                  if negb (truthy next_cursor) then (StopIteration, GenFinished, w2)
                  else gen_pages fuel self profile_id params next_cursor w2
              end
          end
      end
  end.

(** [next(gen)] *)
Definition gen_next (fuel : nat) (self : APIClient) (profile_id : WiseId)
    (st : gen_state) (w : World) : gen_event * gen_state * World :=
  match st with
  | GenCreated f =>
      match activity_params f w with
      | (Err e, w1) => (Raises e, GenFinished, w1)
      | (Ok params, w1) => gen_pages fuel self profile_id params VNone w1
      end
  | GenSuspended params (activity :: pending) response_data =>
      (Yielded activity, GenSuspended params pending response_data, w)
  | GenSuspended params [] response_data =>
      match dict_get response_data "cursor" VNone w with
      | (Err e, w1) => (Raises e, GenFinished, w1)
      | (Ok next_cursor, w1) =>
          if negb (truthy next_cursor) then (StopIteration, GenFinished, w1)
          else gen_pages fuel self profile_id params next_cursor w1
      end
  | GenFetching params next_cursor =>
      gen_pages fuel self profile_id params next_cursor w
  | GenFinished => (StopIteration, GenFinished, w)
  end.

(** A consumer that asks for at most [n] records
    ([itertools.islice(gen, n)] consumed): the records it got, how the
    run stands ([Running] when the generator is left suspended), the
    generator and the world. *)
Fixpoint gen_take (n fuel : nat) (self : APIClient) (profile_id : WiseId)
    (st : gen_state) (w : World) : list value * ending * gen_state * World :=
  match n with
  | O => ([], Running, st, w)
  | S n =>
      match gen_next fuel self profile_id st w with
      | (Yielded v, st1, w1) =>
          let '(rest, e, st2, w2) := gen_take n fuel self profile_id st1 w1 in
          (v :: rest, e, st2, w2)
      | (StopIteration, st1, w1) => ([], Exhausted, st1, w1)
      | (Raises e, st1, w1) => ([], Raised e, st1, w1)
      | (Busy, st1, w1) => ([], Running, st1, w1)
      end
  end.

End Generator.

(** ** Scripted servers *)

(** A page as the activities endpoint sends it. *)
Definition page (activities : list value) (cursor : value) : value :=
  VDict [("activities", VList activities); ("cursor", cursor)].

Definition ok_response (body : value) : Response :=
  mkResponse 200 ∅ "" (Some body).

(** A session whose replies are scripted, as a test double is: the
    server's state is the replies still to give. *)
Definition scripted : Environment := {|
  Server := list reply;
  serve := fun replies _ =>
    match replies with
    | [] => (Failed "no reply left", [])
    | r :: rest => (r, rest)
    end;
  sign_approval_token := fun key token => key +:+ "/" +:+ token;
  datetime := string;
  zulu_time := fun t => t
|}.

(** A server that sends the same page with the same cursor for ever. *)
Definition stuck : Environment := {|
  Server := unit;
  serve := fun _ _ => (Replied (ok_response (page [VInt 1] (VStr "again"))), tt);
  sign_approval_token := fun key token => key +:+ "/" +:+ token;
  datetime := string;
  zulu_time := fun t => t
|}.

Definition start {E : Environment} (s : @Server E) : @World E := mkWorld s [] [].

Definition demo_client : @APIClient := mkAPIClient "key" "secret" false.

Definition no_filters {E : Environment} : @filters E :=
  mkFilters None None None None None.

Definition challenge (token : string) : Response :=
  mkResponse 403
    (<["x-2fa-approval" := token]> {[ "x-2fa-approval-result" := "REJECTED" ]})
    "" None.

(** * Properties *)

Section Executor.
Context `{Environment}.

Lemma after_nil (w : World) : after w (server w) [] [] = w.
Proof. destruct w; unfold after; simpl. by rewrite !app_nil_r. Qed.

Lemma conclude_eq (resp : Response) (w : World) :
  conclude resp w =
    if (400 <=? status_code resp) && (status_code resp <? 600)
    then (Err (HTTPError resp), w)
    else (match json resp with Some v => Ok v | None => Err JSONDecodeError end, w).
Proof.
  unfold conclude, bind, raise_for_status, resp_json.
  destruct (_ && _); [done|]. simpl. by destruct (json resp).
Qed.

(** [get] by cases on what the server answers. *)
Lemma get_eq (self : APIClient) (path : string)
    (ps : option (gmap string value)) (w : World) :
  get self path ps w =
    let req1 := first_request self path ps in
    match serve (server w) req1 with
    | (Failed msg, s1) => (Err (RequestException msg), after w s1 [req1] [])
    | (Replied r1, s1) =>
        if sca_required r1 then
          match headers r1 !! "x-2fa-approval" with
          | None => (Err (KeyError "x-2fa-approval"), after w s1 [req1] [])
          | Some token =>
              let req2 := replay_request self path ps token in
              let tokens := [(signing_key self, token)] in
              match serve s1 req2 with
              | (Failed msg, s2) =>
                  (Err (RequestException msg), after w s2 [req1; req2] tokens)
              | (Replied r2, s2) =>
                  if status_code r2 =? 400
                  then (Err (WiseInvalidPublicKeyError sca_rejected_msg),
                        after w s2 [req1; req2] tokens)
                  else conclude r2 (after w s2 [req1; req2] tokens)
              end
          end
        else conclude r1 (after w s1 [req1] [])
    end.
Proof.
  unfold get, first_request, replay_request, authorization, params_of, after.
  cbv zeta. unfold bind at 1. unfold session_get at 1.
  destruct (serve (server w) _) as [[r1|msg] s1]; simpl; [|by rewrite app_nil_r].
  unfold bind at 1. destruct (sca_required r1).
  - unfold bind at 1, headers_getitem.
    destruct (headers r1 !! "x-2fa-approval") as [token|]; simpl;
      [|by rewrite app_nil_r].
    unfold bind at 1, sign at 1. simpl.
    unfold bind at 1, session_get at 1. simpl.
    rewrite <- !app_assoc. simpl.
    destruct (serve s1 _) as [[r2|msg] s2]; simpl; [|done].
    destruct (status_code r2 =? 400); simpl; done.
  - simpl. by rewrite app_nil_r.
Qed.

Lemma sca_required_iff (resp : Response) :
  sca_required resp = true <->
  status_code resp = 403
  /\ headers resp !! "x-2fa-approval-result" = Some "REJECTED".
Proof.
  unfold sca_required. rewrite andb_true_iff, bool_decide_eq_true.
  by rewrite Z.eqb_eq.
Qed.

Lemma conclude_success (resp : Response) (w : World) :
  200 <= status_code resp < 300 ->
  conclude resp w
    = (match json resp with Some v => Ok v | None => Err JSONDecodeError end, w).
Proof.
  intros Hst. rewrite conclude_eq.
  destruct (400 <=? status_code resp) eqn:Hlo; [|done].
  apply Z.leb_le in Hlo. lia.
Qed.

Lemma conclude_403 (resp : Response) (w : World) :
  status_code resp = 403 -> conclude resp w = (Err (HTTPError resp), w).
Proof. intros Hst. rewrite conclude_eq, Hst. done. Qed.

Lemma conclude_not_rejected (resp : Response) (w : World) (msg : string) :
  fst (conclude resp w) <> Err (WiseInvalidPublicKeyError msg).
Proof.
  rewrite conclude_eq. destruct (_ && _); simpl; [done|].
  by destruct (json resp).
Qed.

(** What every call of [get] leaves behind: one or two requests for the
    same URL with the same parameters, and at most one signature. *)
Lemma get_sends (self : APIClient) (path : string)
    (ps : option (gmap string value)) (w : World) :
  exists s sent tokens,
    snd (get self path ps w) = after w s sent tokens
    /\ (1 <= length sent <= 2)%nat
    /\ (length tokens <= length sent - 1)%nat
    /\ Forall (fun req => url req = base_url self +:+ path
                          /\ params req = params_of ps) sent.
Proof.
  rewrite get_eq. cbv zeta.
  destruct (serve (server w) _) as [[r1|msg] s1].
  - destruct (sca_required r1).
    + destruct (headers r1 !! "x-2fa-approval") as [token|].
      * destruct (serve s1 _) as [[r2|msg] s2].
        -- exists s2, [first_request self path ps; replay_request self path ps token],
             [(signing_key self, token)].
           split; [|split; [simpl; lia|split; [simpl; lia|by repeat constructor]]].
           destruct (status_code r2 =? 400); [done|].
           rewrite conclude_eq. by destruct (_ && _).
        -- exists s2, [first_request self path ps; replay_request self path ps token],
             [(signing_key self, token)].
           split; [done|split; [simpl; lia|split; [simpl; lia|by repeat constructor]]].
      * exists s1, [first_request self path ps], [].
        split; [done|split; [simpl; lia|split; [simpl; lia|by repeat constructor]]].
    + exists s1, [first_request self path ps], [].
      split; [|split; [simpl; lia|split; [simpl; lia|by repeat constructor]]].
      rewrite conclude_eq. by destruct (_ && _).
  - exists s1, [first_request self path ps], [].
    split; [done|split; [simpl; lia|split; [simpl; lia|by repeat constructor]]].
Qed.

(** C1: when the first response is an SCA challenge (403 with
    [x-2fa-approval-result: REJECTED]) and the replayed response is a
    2xx, [get] returns the decoded body of the replayed response; it
    sends exactly one replay, for the same URL and parameters, whose
    headers carry the challenge's token as [x-2fa-approval], its
    signature under the signing key as [x-signature], and the Bearer
    authorization; the token is signed once. *)
Theorem get_replays_signed_challenge (self : APIClient) (path : string)
    (ps : option (gmap string value)) (w : World)
    (r1 r2 : Response) (s1 s2 : Server) (token : string) :
  serve (server w) (first_request self path ps) = (Replied r1, s1) ->
  status_code r1 = 403 ->
  headers r1 !! "x-2fa-approval-result" = Some "REJECTED" ->
  headers r1 !! "x-2fa-approval" = Some token ->
  serve s1 (replay_request self path ps token) = (Replied r2, s2) ->
  200 <= status_code r2 < 300 ->
  let req1 := first_request self path ps in
  let req2 := replay_request self path ps token in
  get self path ps w
    = (match json r2 with Some v => Ok v | None => Err JSONDecodeError end,
       after w s2 [req1; req2] [(signing_key self, token)])
  /\ req_headers req2 !! "x-2fa-approval" = Some token
  /\ req_headers req2 !! "x-signature"
       = Some (sign_approval_token (signing_key self) token)
  /\ req_headers req2 !! "authorization" = Some ("Bearer " +:+ api_key self)
  /\ url req2 = url req1
  /\ params req2 = params req1.
Proof.
  intros Hr1 Hst Hrej Htok Hr2 Hok. cbv zeta. split.
  - rewrite get_eq. cbv zeta. rewrite Hr1.
    assert (sca_required r1 = true) as -> by by apply sca_required_iff.
    rewrite Htok, Hr2.
    destruct (status_code r2 =? 400) eqn:H400; [apply Z.eqb_eq in H400; lia|].
    by apply conclude_success.
  - unfold replay_request, first_request, authorization. simpl.
    repeat split; by simplify_map_eq.
Qed.

(** C2: a response is an SCA challenge exactly when its status is 403
    and its [x-2fa-approval-result] header is [REJECTED].  On a first
    response that is not a challenge [get] sends nothing more and signs
    nothing; on a challenge that carries a token it signs the token and
    sends the replay.  A 403 that is not a challenge fails with the
    [HTTPError] that carries the response, hence its status code. *)
Theorem sca_detection (self : APIClient) (path : string)
    (ps : option (gmap string value)) (w : World) (r1 : Response) (s1 : Server) :
  serve (server w) (first_request self path ps) = (Replied r1, s1) ->
  let req1 := first_request self path ps in
  (sca_required r1 = true <->
     status_code r1 = 403
     /\ headers r1 !! "x-2fa-approval-result" = Some "REJECTED")
  /\ (sca_required r1 = false ->
        snd (get self path ps w) = after w s1 [req1] [])
  /\ (sca_required r1 = true ->
        forall token, headers r1 !! "x-2fa-approval" = Some token ->
        exists s2,
          snd (get self path ps w)
            = after w s2 [req1; replay_request self path ps token]
                [(signing_key self, token)])
  /\ (status_code r1 = 403 ->
        headers r1 !! "x-2fa-approval-result" <> Some "REJECTED" ->
        get self path ps w = (Err (HTTPError r1), after w s1 [req1] [])).
Proof.
  intros Hr1. cbv zeta. split; [apply sca_required_iff|].
  split; [|split].
  - intros Hno. rewrite get_eq. cbv zeta. rewrite Hr1, Hno, conclude_eq.
    by destruct (_ && _).
  - intros Hyes token Htok. rewrite get_eq. cbv zeta. rewrite Hr1, Hyes, Htok.
    destruct (serve s1 _) as [[r2|msg] s2]; exists s2; [|done].
    destruct (status_code r2 =? 400); [done|].
    rewrite conclude_eq. by destruct (_ && _).
  - intros Hst Hrej. rewrite get_eq. cbv zeta. rewrite Hr1.
    destruct (sca_required r1) eqn:Hsca.
    + apply sca_required_iff in Hsca. by destruct Hsca.
    + by apply conclude_403.
Qed.

(** C3: when a replay is sent and its response has status 400, [get]
    fails with [WiseInvalidPublicKeyError] and the fixed message,
    whatever the body of that response; and [get] raises this error in
    no other situation: if it is raised, the first response was a
    challenge with a token and the replay came back with status 400. *)
Theorem invalid_public_key_iff (self : APIClient) (path : string)
    (ps : option (gmap string value)) (w : World) :
  (forall r1 s1 token r2 s2,
     serve (server w) (first_request self path ps) = (Replied r1, s1) ->
     sca_required r1 = true ->
     headers r1 !! "x-2fa-approval" = Some token ->
     serve s1 (replay_request self path ps token) = (Replied r2, s2) ->
     status_code r2 = 400 ->
     get self path ps w
       = (Err (WiseInvalidPublicKeyError
                 "Strong Customer Authentication has been rejected."),
          after w s2 [first_request self path ps;
                      replay_request self path ps token]
            [(signing_key self, token)]))
  /\ (forall msg,
        fst (get self path ps w) = Err (WiseInvalidPublicKeyError msg) ->
        exists r1 s1 token r2 s2,
          serve (server w) (first_request self path ps) = (Replied r1, s1)
          /\ sca_required r1 = true
          /\ headers r1 !! "x-2fa-approval" = Some token
          /\ serve s1 (replay_request self path ps token) = (Replied r2, s2)
          /\ status_code r2 = 400
          /\ msg = "Strong Customer Authentication has been rejected.").
Proof.
  split.
  - intros r1 s1 token r2 s2 Hr1 Hsca Htok Hr2 Hst.
    rewrite get_eq. cbv zeta. by rewrite Hr1, Hsca, Htok, Hr2, Hst.
  - intros msg. rewrite get_eq. cbv zeta.
    destruct (serve (server w) _) as [[r1|m1] s1] eqn:Hr1; [|done].
    destruct (sca_required r1) eqn:Hsca.
    + destruct (headers r1 !! "x-2fa-approval") as [token|] eqn:Htok; [|done].
      destruct (serve s1 _) as [[r2|m2] s2] eqn:Hr2; [|done].
      destruct (status_code r2 =? 400) eqn:Hst.
      * simpl. intros [= <-]. apply Z.eqb_eq in Hst.
        by exists r1, s1, token, r2, s2.
      * intros Hno. by apply conclude_not_rejected in Hno.
    + intros Hno. by apply conclude_not_rejected in Hno.
Qed.

(** C4: a call of [get] sends at most two requests and signs at most
    once.  When the replayed response is a challenge again, nothing more
    is sent or signed: the call fails with the [HTTPError] of that
    second response. *)
Theorem get_at_most_two_requests (self : APIClient) (path : string)
    (ps : option (gmap string value)) (w : World) :
  (exists s sent tokens,
     snd (get self path ps w) = after w s sent tokens
     /\ (length sent <= 2)%nat /\ (length tokens <= 1)%nat)
  /\ (forall r1 s1 token r2 s2,
        serve (server w) (first_request self path ps) = (Replied r1, s1) ->
        sca_required r1 = true ->
        headers r1 !! "x-2fa-approval" = Some token ->
        serve s1 (replay_request self path ps token) = (Replied r2, s2) ->
        sca_required r2 = true ->
        get self path ps w
          = (Err (HTTPError r2),
             after w s2 [first_request self path ps;
                         replay_request self path ps token]
               [(signing_key self, token)])).
Proof.
  split.
  - destruct (get_sends self path ps w) as (s & sent & tokens & Hw & Hn & Hk & _).
    exists s, sent, tokens. split; [done|]. lia.
  - intros r1 s1 token r2 s2 Hr1 Hsca Htok Hr2 Hsca2.
    apply sca_required_iff in Hsca2 as [Hst _].
    rewrite get_eq. cbv zeta. rewrite Hr1, Hsca, Htok, Hr2, Hst. simpl.
    by apply conclude_403.
Qed.

(** C5: when the first response is not an SCA challenge and is a 2xx,
    [get] returns the decoded body of that response and sends no second
    request (and signs nothing). *)
Theorem get_plain_success (self : APIClient) (path : string)
    (ps : option (gmap string value)) (w : World) (r1 : Response) (s1 : Server) :
  serve (server w) (first_request self path ps) = (Replied r1, s1) ->
  sca_required r1 = false ->
  200 <= status_code r1 < 300 ->
  get self path ps w
    = (match json r1 with Some v => Ok v | None => Err JSONDecodeError end,
       after w s1 [first_request self path ps] []).
Proof.
  intros Hr1 Hsca Hst. rewrite get_eq. cbv zeta. rewrite Hr1, Hsca.
  by apply conclude_success.
Qed.

End Executor.

Section Paginator.
Context `{Environment}.

Lemma after_after (w : World) (s1 s2 : Server) (sent1 sent2 : list Request)
    (tokens1 tokens2 : list (string * string)) :
  after (after w s1 sent1 tokens1) s2 sent2 tokens2
    = after w s2 (sent1 ++ sent2) (tokens1 ++ tokens2).
Proof. unfold after. simpl. by rewrite !app_assoc. Qed.

Lemma set_if_other {A} (key k : string) (f : A -> value) (a : option A)
    (ps : gmap string value) :
  key <> k -> set_if key f a ps !! k = ps !! k.
Proof. intros Hne. destruct a; simpl; [|done]. by rewrite lookup_insert_ne. Qed.

(** Building the fixed parameters touches nothing, and [nextCursor] is
    not among them. *)
Lemma activity_params_pure (f : filters) (w : World) :
  snd (activity_params f w) = w.
Proof.
  unfold activity_params. cbv zeta. destruct (size f) as [z|]; [|done].
  by destruct (negb _).
Qed.

Lemma activity_params_no_cursor (f : filters) (w w1 : World)
    (ps : gmap string value) :
  activity_params f w = (Ok ps, w1) -> ps !! "nextCursor" = None.
Proof.
  unfold activity_params. cbv zeta. destruct (size f) as [z|].
  - destruct (negb _); [done|]. intros [= <- _].
    rewrite lookup_insert_ne by done. by rewrite !set_if_other.
  - intros [= <- _]. by rewrite !set_if_other.
Qed.

Lemma fetch_page_eq (self : APIClient) (profile_id : WiseId)
    (ps : gmap string value) (c : value) (w : World) :
  fetch_page self profile_id ps c w =
    match get self (activities_path profile_id) (Some (page_params ps c)) w with
    | (Err e, w1) => (Err e, w1)
    | (Ok (VDict items), w1) =>
        match items_lookup "activities" items with
        | None => (Ok (VDict items, []), w1)
        | Some (VList recs) => (Ok (VDict items, recs), w1)
        | Some (VDict kvs) =>
            (Ok (VDict items, map (fun kv => VStr (fst kv)) kvs), w1)
        | Some (VStr s) => (Ok (VDict items, chars s), w1)
        | Some _ => (Err TypeError, w1)
        end
    | (Ok _, w1) => (Err AttributeError, w1)
    end.
Proof.
  unfold fetch_page, page_params. cbv zeta. unfold bind at 1.
  destruct (get _ _ _ w) as [[d|e] w1]; [|done].
  destruct d; try done. simpl. unfold bind, ret. simpl.
  destruct (items_lookup "activities" items) as [[]|]; done.
Qed.

Lemma fetch_page_dict (self : APIClient) (profile_id : WiseId)
    (ps : gmap string value) (c d : value) (recs : list value) (w w1 : World) :
  fetch_page self profile_id ps c w = (Ok (d, recs), w1) ->
  exists items, d = VDict items.
Proof.
  rewrite fetch_page_eq. destruct (get _ _ _ w) as [[[]|e] w1']; try done.
  destruct (items_lookup "activities" items) as [[]|];
    intros [= <- _ _]; by eexists.
Qed.

(** One turn of the loop on a page that was fetched. *)
Lemma activities_loop_step (fuel : nat) (self : APIClient) (profile_id : WiseId)
    (ps : gmap string value) (c : value) (w w1 : World)
    (items : list (string * value)) (recs : list value) :
  fetch_page self profile_id ps c w = (Ok (VDict items, recs), w1) ->
  activities_loop (S fuel) self profile_id ps c w =
    if truthy (cursor_of items)
    then let '(rest, e, w3) :=
           activities_loop fuel self profile_id ps (cursor_of items) w1 in
         ((recs ++ rest)%list, e, w3)
    else (recs, Exhausted, w1).
Proof.
  intros Hpage. simpl. rewrite Hpage. unfold dict_get, ret, cursor_of.
  by destruct (truthy _).
Qed.

(** A 2xx page that is no challenge, decodes to a [dict] and lists its
    records is fetched with a single request. *)
Lemma fetch_page_ok (self : APIClient) (profile_id : WiseId)
    (ps : gmap string value) (c : value) (w : World) (r : Response)
    (s1 : Server) (items : list (string * value)) (recs : list value) :
  let req := page_request self profile_id ps c in
  serve (server w) req = (Replied r, s1) ->
  200 <= status_code r < 300 ->
  json r = Some (VDict items) ->
  items_lookup "activities" items = Some (VList recs) ->
  fetch_page self profile_id ps c w = (Ok (VDict items, recs), after w s1 [req] []).
Proof.
  cbv zeta. unfold page_request. intros Hr Hst Hjs Hacts.
  rewrite fetch_page_eq, get_eq. cbv zeta. rewrite Hr.
  destruct (sca_required r) eqn:Hsca.
  - apply sca_required_iff in Hsca. lia.
  - rewrite conclude_success by done. by rewrite Hjs, Hacts.
Qed.

Lemma page_params_size (ps : gmap string value) (c : value) :
  page_params ps c !! "size" = ps !! "size".
Proof.
  unfold page_params. destruct (truthy c); [|done].
  by rewrite lookup_insert_ne.
Qed.

Lemma page_params_cursor (ps : gmap string value) (c : value) :
  truthy c = true -> page_params ps c !! "nextCursor" = Some c.
Proof. unfold page_params. intros ->. apply lookup_insert_eq. Qed.

Lemma get_no_ValueError (self : APIClient) (path : string)
    (ps : option (gmap string value)) (w : World) (msg : string) :
  fst (get self path ps w) <> Err (ValueError msg).
Proof.
  assert (forall r w', fst (conclude r w') <> Err (ValueError msg)) as Hc.
  { intros r w'. rewrite conclude_eq. destruct (_ && _); [done|].
    by destruct (json r). }
  rewrite get_eq. cbv zeta.
  destruct (serve (server w) _) as [[r1|m1] s1]; [|done].
  destruct (sca_required r1); [|apply Hc].
  destruct (headers r1 !! "x-2fa-approval") as [token|]; [|done].
  destruct (serve s1 _) as [[r2|m2] s2]; [|done].
  destruct (status_code r2 =? 400); [done|apply Hc].
Qed.

Lemma fetch_page_no_ValueError (self : APIClient) (profile_id : WiseId)
    (ps : gmap string value) (c : value) (w : World) (msg : string) :
  fst (fetch_page self profile_id ps c w) <> Err (ValueError msg).
Proof.
  rewrite fetch_page_eq.
  pose proof (get_no_ValueError self (activities_path profile_id)
                (Some (page_params ps c)) w msg) as Hget.
  destruct (get _ _ _ w) as [[d|e] w1];
    [|simpl in *; intros [= ->]; by apply Hget].
  destruct d; try done.
  by destruct (items_lookup "activities" items) as [[]|].
Qed.

Lemma fetch_page_sends (self : APIClient) (profile_id : WiseId)
    (ps : gmap string value) (c : value) (w : World) :
  exists s sent tokens,
    snd (fetch_page self profile_id ps c w) = after w s sent tokens
    /\ (1 <= length sent <= 2)%nat
    /\ Forall (fun req => params req = page_params ps c) sent.
Proof.
  destruct (get_sends self (activities_path profile_id)
              (Some (page_params ps c)) w)
    as (s & sent & tokens & Hw & Hn & _ & Hall).
  exists s, sent, tokens. split; [|split; [done|]].
  - rewrite <- Hw, fetch_page_eq.
    destruct (get _ _ _ w) as [[[]|e] w1]; try done.
    by destruct (items_lookup "activities" items) as [[]|].
  - eapply Forall_impl; [exact Hall|]. by intros req [_ Hps].
Qed.

(** Whatever the fuel, the loop never raises a [ValueError], and every
    request it sends carries the [size] of the fixed parameters. *)
Lemma activities_loop_sends (fuel : nat) (self : APIClient) (profile_id : WiseId)
    (ps : gmap string value) (c : value) (w : World) :
  (forall msg, snd (fst (activities_loop fuel self profile_id ps c w))
               <> Raised (ValueError msg))
  /\ exists s sent tokens,
       snd (activities_loop fuel self profile_id ps c w) = after w s sent tokens
       /\ Forall (fun req => params req !! "size" = ps !! "size") sent.
Proof.
  revert c w. induction fuel as [|fuel IH]; intros c w.
  - simpl. split; [done|]. exists (server w), [], [].
    by rewrite after_nil.
  - simpl.
    pose proof (fetch_page_no_ValueError self profile_id ps c w) as Hno.
    destruct (fetch_page_sends self profile_id ps c w)
      as (s1 & sent1 & tokens1 & Hw1 & _ & Hall1).
    assert (Forall (fun req => params req !! "size" = ps !! "size") sent1) as Hsz.
    { eapply Forall_impl; [exact Hall1|]. intros req ->. apply page_params_size. }
    destruct (fetch_page self profile_id ps c w) as [[[d recs]|e] w1] eqn:Hpage;
      simpl in Hw1; subst w1.
    + apply fetch_page_dict in Hpage as [items ->]. simpl.
      destruct (truthy _); simpl.
      * destruct (IH (match items_lookup "cursor" items with
                      | Some v => v | None => VNone end)
                    (after w s1 sent1 tokens1))
          as (Hv & s2 & sent2 & tokens2 & Hw2 & Hall2).
        destruct (activities_loop fuel _ _ _ _ _) as [[rest e] w3].
        simpl in *. split; [done|].
        exists s2, (sent1 ++ sent2)%list, (tokens1 ++ tokens2)%list.
        rewrite Hw2, after_after. split; [done|]. by apply Forall_app.
      * split; [done|]. by exists s1, sent1, tokens1.
    + simpl. split.
      * intros msg [= ->]. by apply (Hno msg).
      * by exists s1, sent1, tokens1.
Qed.

(** C6: for the pages [{activities: [a, b], cursor: "c1"}],
    [{activities: [c], cursor: "c2"}] and [{activities: [d], cursor:
    null}], the paginator yields [a, b, c, d] in that order and returns,
    having sent exactly three requests: the first without [nextCursor],
    the second with [nextCursor = "c1"], the third with
    [nextCursor = "c2"]. *)
Theorem get_activities_three_pages (self : APIClient) (profile_id : WiseId)
    (f : filters) (ps : gmap string value) (w : World)
    (a b c d : value) (r1 r2 r3 : Response) (s1 s2 s3 : Server) :
  let req := page_request self profile_id ps in
  activity_params f w = (Ok ps, w) ->
  serve (server w) (req VNone) = (Replied r1, s1) ->
  200 <= status_code r1 < 300 ->
  json r1 = Some (page [a; b] (VStr "c1")) ->
  serve s1 (req (VStr "c1")) = (Replied r2, s2) ->
  200 <= status_code r2 < 300 ->
  json r2 = Some (page [c] (VStr "c2")) ->
  serve s2 (req (VStr "c2")) = (Replied r3, s3) ->
  200 <= status_code r3 < 300 ->
  json r3 = Some (page [d] VNone) ->
  (forall fuel, (3 <= fuel)%nat ->
     get_activities fuel self profile_id f w
       = ([a; b; c; d], Exhausted,
          after w s3 [req VNone; req (VStr "c1"); req (VStr "c2")] []))
  /\ params (req VNone) !! "nextCursor" = None
  /\ params (req (VStr "c1")) !! "nextCursor" = Some (VStr "c1")
  /\ params (req (VStr "c2")) !! "nextCursor" = Some (VStr "c2").
Proof.
  cbv zeta. intros Hps Hr1 Hst1 Hj1 Hr2 Hst2 Hj2 Hr3 Hst3 Hj3.
  split; [|split; [|split]].
  - intros [|[|[|fuel]]] Hfuel; try lia.
    unfold get_activities. rewrite Hps.
    erewrite activities_loop_step
      by (eapply fetch_page_ok; [exact Hr1|done|exact Hj1|done]).
    simpl truthy. cbv iota.
    erewrite activities_loop_step
      by (eapply fetch_page_ok; [exact Hr2|done|exact Hj2|done]).
    simpl truthy. cbv iota.
    erewrite activities_loop_step
      by (eapply fetch_page_ok; [exact Hr3|done|exact Hj3|done]).
    simpl truthy. cbv iota. by rewrite !after_after.
  - simpl. by eapply activity_params_no_cursor.
  - by apply page_params_cursor.
  - by apply page_params_cursor.
Qed.

(** C7: a [size] outside [1 <= size <= 100] makes the paginator fail
    with the [ValueError] before anything is sent: nothing is yielded
    and the world is untouched.  A [size] within the range raises no
    [ValueError], and [size] is among the query parameters of every
    request that is sent. *)
Theorem get_activities_size_validation (fuel : nat) (self : APIClient)
    (profile_id : WiseId) (f : filters) (w : World) (z : Z) :
  size f = Some z ->
  (~ (1 <= z <= 100) ->
     get_activities fuel self profile_id f w
       = ([], Raised (ValueError "Size must be between 1 and 100"), w))
  /\ (1 <= z <= 100 ->
        (forall msg, snd (fst (get_activities fuel self profile_id f w))
                     <> Raised (ValueError msg))
        /\ (exists ps, activity_params f w = (Ok ps, w)
                       /\ ps !! "size" = Some (VInt z))
        /\ exists s sent tokens,
             snd (get_activities fuel self profile_id f w)
               = after w s sent tokens
             /\ Forall (fun req => params req !! "size" = Some (VInt z)) sent).
Proof.
  intros Hsize. unfold get_activities, activity_params. cbv zeta.
  rewrite Hsize. split.
  - intros Hout.
    destruct ((1 <=? z) && (z <=? 100)) eqn:Hin; [|done].
    apply andb_true_iff in Hin as [?%Z.leb_le ?%Z.leb_le]. lia.
  - intros Hin.
    assert ((1 <=? z) && (z <=? 100) = true) as ->.
    { apply andb_true_iff. split; apply Z.leb_le; lia. }
    simpl. unfold ret.
    match goal with |- context [activities_loop _ _ _ ?ps _ _] => set (params := ps) end.
    destruct (activities_loop_sends fuel self profile_id params VNone w)
      as (Hv & s & sent & tokens & Hw & Hall).
    split; [done|]. split.
    + exists params. split; [done|]. subst params. by rewrite lookup_insert_eq.
    + exists s, sent, tokens. split; [done|].
      eapply Forall_impl; [exact Hall|]. intros req ->.
      subst params. by rewrite lookup_insert_eq.
Qed.

(** Every call of [get] begins with the first request. *)
Lemma get_sends_first (self : APIClient) (path : string)
    (ps : option (gmap string value)) (w : World) :
  exists s sent tokens,
    snd (get self path ps w)
      = after w s (first_request self path ps :: sent) tokens.
Proof.
  rewrite get_eq. cbv zeta.
  destruct (serve (server w) _) as [[r1|m1] s1]; [|by eexists _, [], []].
  destruct (sca_required r1).
  - destruct (headers r1 !! "x-2fa-approval") as [token|];
      [|by eexists _, [], []].
    destruct (serve s1 _) as [[r2|m2] s2]; [|by eexists _, [_], _].
    exists s2, [replay_request self path ps token], [(signing_key self, token)].
    destruct (status_code r2 =? 400); [done|].
    rewrite conclude_eq. by destruct (_ && _).
  - exists s1, [], []. rewrite conclude_eq. by destruct (_ && _).
Qed.

(** A loop with fuel left begins with the request for the page at its
    cursor. *)
Lemma activities_loop_sends_first (fuel : nat) (self : APIClient)
    (profile_id : WiseId) (ps : gmap string value) (c : value) (w : World) :
  exists s sent tokens,
    snd (activities_loop (S fuel) self profile_id ps c w)
      = after w s (page_request self profile_id ps c :: sent) tokens.
Proof.
  destruct (get_sends_first self (activities_path profile_id)
              (Some (page_params ps c)) w) as (s1 & sent1 & tokens1 & Hw1).
  assert (snd (fetch_page self profile_id ps c w)
          = after w s1 (page_request self profile_id ps c :: sent1) tokens1)
    as Hpage.
  { unfold page_request. rewrite <- Hw1, fetch_page_eq.
    destruct (get _ _ _ w) as [[[]|e] w1]; try done.
    by destruct (items_lookup "activities" items) as [[]|]. }
  simpl.
  destruct (fetch_page self profile_id ps c w) as [[[d recs]|e] w1] eqn:Hf;
    simpl in Hpage; subst w1; [|by eexists _, _, _].
  apply fetch_page_dict in Hf as [items ->]. simpl.
  destruct (truthy _); simpl; [|by eexists _, _, _].
  destruct (activities_loop_sends fuel self profile_id ps
              (match items_lookup "cursor" items with
               | Some v => v | None => VNone end)
              (after w s1 (page_request self profile_id ps c :: sent1) tokens1))
    as (_ & s2 & sent2 & tokens2 & Hw2 & _).
  destruct (activities_loop fuel _ _ _ _ _) as [[rest e] w3]. simpl in *.
  subst w3. rewrite after_after. by eexists _, _, _.
Qed.

(** Once the chain of cursors ends after [n] pages, any fuel of at
    least [n] gives the same finished run. *)
Lemma chain_ends_exhausted (self : APIClient) (profile_id : WiseId)
    (ps : gmap string value) (c : value) (w : World) (n : nat) :
  chain_ends self profile_id ps c w n ->
  exists ys w',
    forall fuel, (n <= fuel)%nat ->
      activities_loop fuel self profile_id ps c w = (ys, Exhausted, w').
Proof.
  induction 1 as [c w items recs w1 Hpage Hstop
                 |c w items recs w1 n Hpage Hgo _ (ys & w' & IH)].
  - exists recs, w1. intros [|fuel] Hfuel; [lia|].
    by rewrite (activities_loop_step _ _ _ _ _ _ _ _ _ Hpage), Hstop.
  - exists (recs ++ ys)%list, w'. intros [|fuel] Hfuel; [lia|].
    rewrite (activities_loop_step _ _ _ _ _ _ _ _ _ Hpage), Hgo.
    by rewrite IH by lia.
Qed.

(** Against a server whose cursor is never empty the loop is still
    running after any number of pages, one request each. *)
Lemma endless_server_running (self : APIClient) (profile_id : WiseId)
    (ps : gmap string value) :
  endless_server ->
  forall fuel c w,
    exists ys s sent,
      activities_loop fuel self profile_id ps c w
        = (ys, Running, after w s sent [])
      /\ length sent = fuel.
Proof.
  intros Hserver. induction fuel as [|fuel IH]; intros c w.
  - exists [], (server w), []. simpl. by rewrite after_nil.
  - destruct (Hserver (server w) (page_request self profile_id ps c))
      as (r & s1 & items & recs & Hr & Hst & Hjs & Hacts & Hgo).
    assert (fetch_page self profile_id ps c w
            = (Ok (VDict items, recs),
               after w s1 [page_request self profile_id ps c] [])) as Hpage.
    { eapply fetch_page_ok; [exact Hr|lia|exact Hjs|exact Hacts]. }
    rewrite (activities_loop_step _ _ _ _ _ _ _ _ _ Hpage), Hgo.
    destruct (IH (cursor_of items)
                (after w s1 [page_request self profile_id ps c] []))
      as (ys & s2 & sent & -> & Hlen).
    exists (recs ++ ys)%list, s2, (page_request self profile_id ps c :: sent).
    rewrite after_after. simpl. by rewrite Hlen.
Qed.

(** C8: after a page, the loop stops exactly when the page's cursor is
    absent or empty (falsy, for a cursor that is a string or [None]:
    absent, [None] or the empty string) and goes on with that cursor
    otherwise.  Hence, when the server's chain of cursors ends after
    some number of pages, the run is finite: from that much fuel on it
    has returned, with one and the same sequence.  And the client does
    not detect loops: against a server whose cursor is never empty the
    run is still going after any number of pages. *)
Theorem pagination_termination (self : APIClient) (profile_id : WiseId)
    (ps : gmap string value) :
  (forall fuel c w items recs w1,
     fetch_page self profile_id ps c w = (Ok (VDict items, recs), w1) ->
     (truthy (cursor_of items) = false ->
        activities_loop (S fuel) self profile_id ps c w = (recs, Exhausted, w1))
     /\ (truthy (cursor_of items) = true ->
           activities_loop (S fuel) self profile_id ps c w
             = let '(rest, e, w3) :=
                 activities_loop fuel self profile_id ps (cursor_of items) w1 in
               ((recs ++ rest)%list, e, w3)))
  /\ (forall items,
        (items_lookup "cursor" items = None -> truthy (cursor_of items) = false)
        /\ (items_lookup "cursor" items = Some VNone ->
              truthy (cursor_of items) = false)
        /\ (forall s, items_lookup "cursor" items = Some (VStr s) ->
              (truthy (cursor_of items) = false <-> s = "")))
  /\ (forall c w n,
        chain_ends self profile_id ps c w n ->
        exists ys w',
          forall fuel, (n <= fuel)%nat ->
            activities_loop fuel self profile_id ps c w = (ys, Exhausted, w'))
  /\ (endless_server ->
        forall fuel c w,
          exists ys s sent,
            activities_loop fuel self profile_id ps c w
              = (ys, Running, after w s sent [])
            /\ length sent = fuel).
Proof.
  split; [|split; [|split]].
  - intros fuel c w items recs w1 Hpage.
    rewrite (activities_loop_step _ _ _ _ _ _ _ _ _ Hpage).
    split; by intros ->.
  - intros items. unfold cursor_of. split; [by intros ->|].
    split; [by intros ->|]. intros s ->. simpl.
    destruct (String.eqb_spec s ""); simpl; split; done.
  - intros c w n. apply chain_ends_exhausted.
  - apply endless_server_running.
Qed.

(** C9: a page whose body has no [activities] key yields no record,
    and its cursor is still read: when the cursor is absent or empty
    the run ends there, and otherwise the loop goes on from that
    cursor, its next request carrying it as [nextCursor]. *)
Theorem missing_activities_key (fuel : nat) (self : APIClient)
    (profile_id : WiseId) (ps : gmap string value) (c : value) (w w1 : World)
    (items : list (string * value)) :
  get self (activities_path profile_id) (Some (page_params ps c)) w
    = (Ok (VDict items), w1) ->
  items_lookup "activities" items = None ->
  fetch_page self profile_id ps c w = (Ok (VDict items, []), w1)
  /\ (truthy (cursor_of items) = false ->
        activities_loop (S fuel) self profile_id ps c w = ([], Exhausted, w1))
  /\ (truthy (cursor_of items) = true ->
        activities_loop (S fuel) self profile_id ps c w
          = activities_loop fuel self profile_id ps (cursor_of items) w1
        /\ params (page_request self profile_id ps (cursor_of items))
             !! "nextCursor" = Some (cursor_of items)
        /\ exists s sent tokens,
             snd (activities_loop (S (S fuel)) self profile_id ps c w)
               = after w1 s
                   (page_request self profile_id ps (cursor_of items) :: sent)
                   tokens).
Proof.
  intros Hget Hnone.
  assert (fetch_page self profile_id ps c w = (Ok (VDict items, []), w1))
    as Hpage by by rewrite fetch_page_eq, Hget, Hnone.
  split; [done|]. split.
  - intros Hstop.
    by rewrite (activities_loop_step _ _ _ _ _ _ _ _ _ Hpage), Hstop.
  - intros Hgo.
    assert (forall k, activities_loop (S k) self profile_id ps c w
                      = activities_loop k self profile_id ps (cursor_of items) w1)
      as Hstep.
    { intros k. rewrite (activities_loop_step _ _ _ _ _ _ _ _ _ Hpage), Hgo.
      by destruct (activities_loop k _ _ _ _ _) as [[rest e] w3]. }
    split; [apply Hstep|]. split; [by apply page_params_cursor|].
    rewrite Hstep. apply activities_loop_sends_first.
Qed.

End Paginator.

(** * The properties on scripted servers *)

(** X4: a challenge that carries no [x-2fa-approval] header stops the call
    with the [KeyError] of the missing header, before anything is signed
    or sent again. *)
Lemma get_challenge_without_token `{Environment} (self : APIClient)
    (path : string) (ps : option (gmap string value)) (w : World)
    (r1 : Response) (s1 : Server) :
  serve (server w) (first_request self path ps) = (Replied r1, s1) ->
  sca_required r1 = true ->
  headers r1 !! "x-2fa-approval" = None ->
  get self path ps w
    = (Err (KeyError "x-2fa-approval"),
       after w s1 [first_request self path ps] []).
Proof.
  intros Hr1 Hsca Htok. rewrite get_eq. cbv zeta. by rewrite Hr1, Hsca, Htok.
Qed.

Lemma get_replays_signed_challenge_witness :
  let w := @start scripted
             [Replied (challenge "tok"); Replied (ok_response (VInt 7))] in
  fst (@get scripted demo_client "/v1/me" None w) = Ok (VInt 7)
  /\ length (requests (snd (@get scripted demo_client "/v1/me" None w))) = 2%nat
  /\ signed (snd (@get scripted demo_client "/v1/me" None w))
     = [("secret", "tok")].
Proof.
  intros w.
  destruct (get_replays_signed_challenge (H := scripted) demo_client "/v1/me"
              None w (challenge "tok") (ok_response (VInt 7))
              [Replied (ok_response (VInt 7))] [] "tok")
    as [Hget _]; try reflexivity.
  - simpl. lia.
  - rewrite Hget. repeat split.
Defined.

Lemma sca_detection_witness :
  let r1 := mkResponse 403 ∅ "forbidden" None in
  let w := @start scripted [Replied r1; Replied (ok_response (VInt 7))] in
  @get scripted demo_client "/v1/me" None w
    = (Err (HTTPError r1),
       after w [Replied (ok_response (VInt 7))]
         [@first_request demo_client "/v1/me" None] []).
Proof.
  intros r1 w.
  apply (sca_detection (H := scripted) demo_client "/v1/me" None w r1
           [Replied (ok_response (VInt 7))] eq_refl).
  - reflexivity.
  - vm_compute. discriminate.
Defined.

Lemma invalid_public_key_iff_witness :
  let r2 := mkResponse 400 ∅ "any body" (Some (VStr "any body")) in
  let w := @start scripted [Replied (challenge "tok"); Replied r2] in
  fst (@get scripted demo_client "/v1/me" None w)
    = Err (WiseInvalidPublicKeyError
             "Strong Customer Authentication has been rejected.").
Proof.
  intros r2 w.
  rewrite (proj1 (invalid_public_key_iff (H := scripted) demo_client "/v1/me"
                    None w)
             (challenge "tok") [Replied r2] "tok" r2 []
             eq_refl eq_refl eq_refl eq_refl eq_refl).
  reflexivity.
Defined.

Lemma get_at_most_two_requests_witness :
  let w := @start scripted
             [Replied (challenge "tok"); Replied (challenge "again");
              Replied (ok_response (VInt 7))] in
  @get scripted demo_client "/v1/me" None w
    = (Err (HTTPError (challenge "again")),
       after w [Replied (ok_response (VInt 7))]
         [@first_request demo_client "/v1/me" None;
          @replay_request scripted demo_client "/v1/me" None "tok"]
         [("secret", "tok")]).
Proof.
  intros w.
  apply (proj2 (get_at_most_two_requests (H := scripted) demo_client "/v1/me"
                  None w)
           (challenge "tok")
           [Replied (challenge "again"); Replied (ok_response (VInt 7))]
           "tok" (challenge "again") [Replied (ok_response (VInt 7))]);
    reflexivity.
Defined.

Lemma get_plain_success_witness :
  let w := @start scripted [Replied (ok_response (VInt 7))] in
  @get scripted demo_client "/v1/me" None w
    = (Ok (VInt 7), after w [] [@first_request demo_client "/v1/me" None] []).
Proof.
  intros w.
  apply (get_plain_success (H := scripted) demo_client "/v1/me" None w
           (ok_response (VInt 7)) [] eq_refl eq_refl).
  simpl. lia.
Defined.

Lemma get_activities_three_pages_witness :
  let r1 := ok_response (page [VStr "a"; VStr "b"] (VStr "c1")) in
  let r2 := ok_response (page [VStr "c"] (VStr "c2")) in
  let r3 := ok_response (page [VStr "d"] VNone) in
  let w := @start scripted [Replied r1; Replied r2; Replied r3] in
  let run := @get_activities scripted 5 demo_client (IdInt 42) no_filters w in
  fst (fst run) = [VStr "a"; VStr "b"; VStr "c"; VStr "d"]
  /\ snd (fst run) = Exhausted
  /\ length (requests (snd run)) = 3%nat.
Proof.
  intros r1 r2 r3 w run.
  destruct (get_activities_three_pages (H := scripted) demo_client (IdInt 42)
              no_filters ∅ w (VStr "a") (VStr "b") (VStr "c") (VStr "d")
              r1 r2 r3 [Replied r2; Replied r3] [Replied r3] [])
    as [Hrun _]; try reflexivity; try (simpl; lia).
  unfold run. rewrite (Hrun 5%nat) by lia. repeat split.
Defined.

Lemma get_activities_size_validation_witness :
  let f := @mkFilters scripted None None None None (Some 0) in
  let w := @start scripted [Replied (ok_response (page [] VNone))] in
  @get_activities scripted 3 demo_client (IdInt 42) f w
    = ([], Raised (ValueError "Size must be between 1 and 100"), w).
Proof.
  intros f w.
  apply (proj1 (get_activities_size_validation (H := scripted) 3 demo_client
                  (IdInt 42) f w 0 eq_refl)).
  lia.
Defined.

Lemma pagination_termination_witness :
  (let r1 := ok_response (page [VStr "a"] (VStr "c1")) in
   let r2 := ok_response (page [VStr "b"] (VStr "")) in
   let w := @start scripted [Replied r1; Replied r2] in
   exists ys w',
     forall fuel, (2 <= fuel)%nat ->
       @activities_loop scripted fuel demo_client (IdInt 42) ∅ VNone w
         = (ys, Exhausted, w'))
  /\ (forall fuel,
        exists ys s sent,
          @activities_loop stuck fuel demo_client (IdInt 42) ∅ VNone
            (@start stuck tt)
            = (ys, Running, after (@start stuck tt) s sent [])
          /\ length sent = fuel).
Proof.
  split.
  - intros r1 r2 w.
    apply (proj1 (proj2 (proj2
             (pagination_termination (H := scripted) demo_client (IdInt 42) ∅)))).
    eapply chain_more; [reflexivity|reflexivity|].
    eapply chain_last; reflexivity.
  - intros fuel.
    apply (proj2 (proj2 (proj2
             (pagination_termination (H := stuck) demo_client (IdInt 42) ∅)))).
    intros [] req.
    exists (ok_response (page [VInt 1] (VStr "again"))), tt,
      [("activities", VList [VInt 1]); ("cursor", VStr "again")], [VInt 1].
    repeat split.
Defined.

Lemma missing_activities_key_witness :
  let body := VDict [("cursor", VStr "c1")] in
  let r2 := ok_response (page [VStr "x"] VNone) in
  let w := @start scripted [Replied (ok_response body); Replied r2] in
  @activities_loop scripted 2 demo_client (IdInt 42) ∅ VNone w
    = @activities_loop scripted 1 demo_client (IdInt 42) ∅ (VStr "c1")
        (after w [Replied r2]
           [@page_request demo_client (IdInt 42) ∅ VNone] []).
Proof.
  intros body r2 w.
  apply (missing_activities_key (H := scripted) 1 demo_client (IdInt 42) ∅
           VNone w
           (after w [Replied r2] [@page_request demo_client (IdInt 42) ∅ VNone] [])
           [("cursor", VStr "c1")] eq_refl eq_refl).
  reflexivity.
Defined.

(** C10: a statement asked for as [pdf] goes through the same [get] as
    every other endpoint, which decodes the body as JSON: a 200 response
    whose body is a PDF document, hence not JSON, makes the call raise
    the decoder's error instead of returning the body; and a body that
    does decode is returned decoded, not raw. *)
Lemma pdf_statement_is_json_decoded :
  let document := mkResponse 200 ∅ "%PDF-1.7" None in
  let table := mkResponse 200 ∅ "[1]" (Some (VList [VInt 1])) in
  fst (@get_balance_statement scripted demo_client (IdInt 1) (IdInt 2) "EUR"
         "2024-01-01T00:00:00Z" "2024-01-31T23:59:59Z" pdf false
         (@start scripted [Replied document]))
    = Err JSONDecodeError
  /\ fst (@get_borderless_account_statement scripted demo_client (IdInt 1)
            (IdInt 2) "EUR" "2024-01-01T00:00:00Z" "2024-01-31T23:59:59Z" csv
            true (@start scripted [Replied table]))
     = Ok (VList [VInt 1])
  /\ (forall (E : Environment) (self : APIClient)
        (profile_id balance_id : WiseId) (currency : string)
        (start_ end_ : @datetime E) (type : statement_type) (compact : bool),
        @get_balance_statement E self profile_id balance_id currency
          start_ end_ type compact
        = @get E self
            ("/v1/profiles/" +:+ format_id profile_id +:+ "/balance-statements/"
               +:+ format_id balance_id +:+ "/statement." +:+ format_type type)
            (Some (@statement_params E currency start_ end_ compact)))
  /\ (forall (E : Environment) (self : APIClient)
        (profile_id account_id : WiseId) (currency : string)
        (start_ end_ : @datetime E) (type : statement_type) (compact : bool),
        @get_borderless_account_statement E self profile_id account_id currency
          start_ end_ type compact
        = @get E self
            ("/v3/profiles/" +:+ format_id profile_id +:+ "/borderless-accounts/"
               +:+ format_id account_id +:+ "/statement." +:+ format_type type)
            (Some (@statement_params E currency start_ end_ compact))).
Proof. repeat split. Qed.

(** * More on the request executor *)

Section ExecutorErrors.
Context `{Environment}.

(** What a call of [get] has sent when it ends: the first request alone
    and nothing signed, or the first request and the replay for one
    signed token. *)
Lemma get_sent_cases (self : APIClient) (path : string)
    (ps : option (gmap string value)) (w : World) :
  exists s sent tokens,
    snd (get self path ps w) = after w s sent tokens
    /\ ((sent = [first_request self path ps] /\ tokens = [])
        \/ exists token,
             sent = [first_request self path ps;
                     replay_request self path ps token]
             /\ tokens = [(signing_key self, token)]).
Proof.
  rewrite get_eq. cbv zeta.
  destruct (serve (server w) _) as [[r1|m1] s1];
    [|eexists _, _, _; split; [done|by left]].
  destruct (sca_required r1).
  - destruct (headers r1 !! "x-2fa-approval") as [token|];
      [|eexists _, _, _; split; [done|by left]].
    destruct (serve s1 _) as [[r2|m2] s2];
      [|eexists _, _, _; split; [done|right; by exists token]].
    exists s2, [first_request self path ps; replay_request self path ps token],
      [(signing_key self, token)].
    split; [|right; by exists token].
    destruct (status_code r2 =? 400); [done|].
    rewrite conclude_eq. by destruct (_ && _).
  - exists s1, [first_request self path ps], [].
    split; [|by left]. rewrite conclude_eq. by destruct (_ && _).
Qed.

(** X1: every request of a call goes to the one base URL the client's
    [production] flag selects, followed by the path: the sandbox host
    when the flag is off, the production host when it is on. *)
Theorem get_routes_by_production (self : APIClient) (path : string)
    (ps : option (gmap string value)) (w : World) :
  exists s sent tokens,
    snd (get self path ps w) = after w s sent tokens
    /\ sent <> []
    /\ Forall (fun req =>
         url req = (if production self
                    then "https://api.transferwise.com"
                    else "https://api.sandbox.transferwise.tech") +:+ path) sent.
Proof.
  destruct (get_sent_cases self path ps w) as (s & sent & tokens & Hw & Hsent).
  exists s, sent, tokens. split; [done|].
  assert (base_url self
          = if production self then "https://api.transferwise.com"
            else "https://api.sandbox.transferwise.tech") as <-.
  { unfold base_url. by destruct (production self). }
  destruct Hsent as [[-> _]|(token & -> & _)]; split;
    try done; by repeat constructor.
Qed.

(** X2: every request of a call carries the Bearer authorization with
    the API key and the caller's query parameters; the first request has
    no other header, so the signature headers never go out unless the
    server asked for them. *)
Theorem get_requests_authorized (self : APIClient) (path : string)
    (ps : option (gmap string value)) (w : World) :
  exists s first rest tokens,
    snd (get self path ps w) = after w s (first :: rest) tokens
    /\ req_headers first = {[ "authorization" := "Bearer " +:+ api_key self ]}
    /\ Forall (fun req =>
         req_headers req !! "authorization"
           = Some ("Bearer " +:+ api_key self)
         /\ params req = match ps with Some d => d | None => ∅ end)
         (first :: rest).
Proof.
  destruct (get_sent_cases self path ps w) as (s & sent & tokens & Hw & Hsent).
  destruct Hsent as [[-> _]|(token & -> & _)].
  - exists s, (first_request self path ps), [], tokens.
    split; [done|]. split; [done|].
    repeat constructor; unfold first_request, authorization;
      simpl; by simplify_map_eq.
  - exists s, (first_request self path ps),
      [replay_request self path ps token], tokens.
    split; [done|]. split; [done|].
    repeat constructor; unfold first_request, replay_request, authorization;
      simpl; by simplify_map_eq.
Qed.

(** X3: a failure of the connection is not retried.  When the first
    request fails, the call raises the transport's exception after that
    one request; when the replay fails, it raises after the two
    requests. *)
Theorem get_transport_failure (self : APIClient) (path : string)
    (ps : option (gmap string value)) (w : World) (msg : string) :
  (forall s1,
     serve (server w) (first_request self path ps) = (Failed msg, s1) ->
     get self path ps w
       = (Err (RequestException msg),
          after w s1 [first_request self path ps] []))
  /\ (forall r1 s1 token s2,
        serve (server w) (first_request self path ps) = (Replied r1, s1) ->
        sca_required r1 = true ->
        headers r1 !! "x-2fa-approval" = Some token ->
        serve s1 (replay_request self path ps token) = (Failed msg, s2) ->
        get self path ps w
          = (Err (RequestException msg),
             after w s2 [first_request self path ps;
                         replay_request self path ps token]
               [(signing_key self, token)])).
Proof.
  split.
  - intros s1 Hr1. rewrite get_eq. cbv zeta. by rewrite Hr1.
  - intros r1 s1 token s2 Hr1 Hsca Htok Hr2. rewrite get_eq. cbv zeta.
    by rewrite Hr1, Hsca, Htok, Hr2.
Qed.

(** X5: a first response with a 4xx or 5xx status that is not a
    challenge fails with the [HTTPError] of that response after the one
    request, whether or not its body is JSON; a 400 there is such an
    error too, not the invalid-key error. *)
Theorem get_http_error_first (self : APIClient) (path : string)
    (ps : option (gmap string value)) (w : World) (r1 : Response) (s1 : Server) :
  serve (server w) (first_request self path ps) = (Replied r1, s1) ->
  sca_required r1 = false ->
  400 <= status_code r1 < 600 ->
  get self path ps w
    = (Err (HTTPError r1), after w s1 [first_request self path ps] []).
Proof.
  intros Hr1 Hsca Hst. rewrite get_eq. cbv zeta. rewrite Hr1, Hsca, conclude_eq.
  assert ((400 <=? status_code r1) && (status_code r1 <? 600) = true) as ->;
    [|done].
  apply andb_true_iff. split; [apply Z.leb_le|apply Z.ltb_lt]; lia.
Qed.

(** X6: a replay answered with a 4xx or 5xx status other than 400
    fails with the [HTTPError] of the replayed response. *)
Theorem get_http_error_replay (self : APIClient) (path : string)
    (ps : option (gmap string value)) (w : World)
    (r1 r2 : Response) (s1 s2 : Server) (token : string) :
  serve (server w) (first_request self path ps) = (Replied r1, s1) ->
  sca_required r1 = true ->
  headers r1 !! "x-2fa-approval" = Some token ->
  serve s1 (replay_request self path ps token) = (Replied r2, s2) ->
  400 < status_code r2 < 600 ->
  get self path ps w
    = (Err (HTTPError r2),
       after w s2 [first_request self path ps;
                   replay_request self path ps token]
         [(signing_key self, token)]).
Proof.
  intros Hr1 Hsca Htok Hr2 Hst. rewrite get_eq. cbv zeta.
  rewrite Hr1, Hsca, Htok, Hr2.
  destruct (status_code r2 =? 400) eqn:H400; [apply Z.eqb_eq in H400; lia|].
  rewrite conclude_eq.
  assert ((400 <=? status_code r2) && (status_code r2 <? 600) = true) as ->;
    [|done].
  apply andb_true_iff. split; [apply Z.leb_le|apply Z.ltb_lt]; lia.
Qed.



End ExecutorErrors.

(** * The statement endpoints *)

Section Statements.
Context `{Environment}.

Lemma statement_params_lookup (currency : string) (start end_ : datetime)
    (compact : bool) :
  let ps := statement_params currency start end_ compact in
  ps !! "intervalStart" = Some (VStr (zulu_time start))
  /\ ps !! "intervalEnd" = Some (VStr (zulu_time end_))
  /\ ps !! "currency" = Some (VStr currency)
  /\ ps !! "type" = Some (VStr (if compact then "COMPACT" else "FLAT"))
  /\ dom ps = {[ "intervalStart"; "intervalEnd"; "currency"; "type" ]}.
Proof.
  cbv zeta. unfold statement_params.
  split; [by simplify_map_eq|]. split; [by simplify_map_eq|].
  split; [by simplify_map_eq|]. split; [by simplify_map_eq|].
  rewrite !dom_insert_L, dom_singleton_L. set_solver.
Qed.

(** X9: every request of a balance statement call, the replay after a
    challenge included, asks for
    [/v1/profiles/<profile>/balance-statements/<balance>/statement.<type>]
    on the client's base URL with exactly four query parameters: the
    interval bounds as [zulu_time] renders them, the currency, and
    [type], which is [COMPACT] for a compact statement and [FLAT]
    otherwise. *)
Theorem balance_statement_requests (self : APIClient)
    (profile_id balance_id : WiseId) (currency : string) (start end_ : datetime)
    (type : statement_type) (compact : bool) (w : World) :
  exists s sent tokens,
    snd (get_balance_statement self profile_id balance_id currency start end_
           type compact w) = after w s sent tokens
    /\ sent <> []
    /\ Forall (fun req =>
         url req = base_url self +:+ "/v1/profiles/" +:+ format_id profile_id
                     +:+ "/balance-statements/" +:+ format_id balance_id
                     +:+ "/statement."
                     +:+ match type with
                         | pdf => "pdf" | csv => "csv" | json_type => "json"
                         end
         /\ params req !! "intervalStart" = Some (VStr (zulu_time start))
         /\ params req !! "intervalEnd" = Some (VStr (zulu_time end_))
         /\ params req !! "currency" = Some (VStr currency)
         /\ params req !! "type"
              = Some (VStr (if compact then "COMPACT" else "FLAT"))
         /\ dom (params req)
              = {[ "intervalStart"; "intervalEnd"; "currency"; "type" ]}) sent.
Proof.
  unfold get_balance_statement.
  destruct (get_sends self
              ("/v1/profiles/" +:+ format_id profile_id +:+ "/balance-statements/"
                 +:+ format_id balance_id +:+ "/statement." +:+ format_type type)
              (Some (statement_params currency start end_ compact)) w)
    as (s & sent & tokens & Hw & Hn & _ & Hall).
  exists s, sent, tokens. split; [done|]. split.
  - intros ->. simpl in Hn. lia.
  - eapply Forall_impl; [exact Hall|]. intros req [-> ->]. simpl.
    split; [by destruct type|]. apply statement_params_lookup.
Qed.

(** X10: the borderless account statement differs in the path only,
    [/v3/profiles/<profile>/borderless-accounts/<account>/statement.<type>],
    with the same four query parameters on every request. *)
Theorem borderless_account_statement_requests (self : APIClient)
    (profile_id account_id : WiseId) (currency : string) (start end_ : datetime)
    (type : statement_type) (compact : bool) (w : World) :
  exists s sent tokens,
    snd (get_borderless_account_statement self profile_id account_id currency
           start end_ type compact w) = after w s sent tokens
    /\ sent <> []
    /\ Forall (fun req =>
         url req = base_url self +:+ "/v3/profiles/" +:+ format_id profile_id
                     +:+ "/borderless-accounts/" +:+ format_id account_id
                     +:+ "/statement."
                     +:+ match type with
                         | pdf => "pdf" | csv => "csv" | json_type => "json"
                         end
         /\ params req !! "intervalStart" = Some (VStr (zulu_time start))
         /\ params req !! "intervalEnd" = Some (VStr (zulu_time end_))
         /\ params req !! "currency" = Some (VStr currency)
         /\ params req !! "type"
              = Some (VStr (if compact then "COMPACT" else "FLAT"))
         /\ dom (params req)
              = {[ "intervalStart"; "intervalEnd"; "currency"; "type" ]}) sent.
Proof.
  unfold get_borderless_account_statement.
  destruct (get_sends self
              ("/v3/profiles/" +:+ format_id profile_id +:+ "/borderless-accounts/"
                 +:+ format_id account_id +:+ "/statement." +:+ format_type type)
              (Some (statement_params currency start end_ compact)) w)
    as (s & sent & tokens & Hw & Hn & _ & Hall).
  exists s, sent, tokens. split; [done|]. split.
  - intros ->. simpl in Hn. lia.
  - eapply Forall_impl; [exact Hall|]. intros req [-> ->]. simpl.
    split; [by destruct type|]. apply statement_params_lookup.
Qed.

End Statements.

(** * More on the paginator *)

Section PaginatorRuns.
Context `{Environment}.

Lemma set_if_same {A} (key : string) (f : A -> value) (a : option A)
    (ps : gmap string value) :
  set_if key f a ps !! key
    = match a with Some x => Some (f x) | None => ps !! key end.
Proof. destruct a; simpl; [|done]. by rewrite lookup_insert_eq. Qed.

Lemma fetch_page_requests (self : APIClient) (profile_id : WiseId)
    (ps : gmap string value) (c : value) (w : World) :
  exists s sent tokens,
    snd (fetch_page self profile_id ps c w) = after w s sent tokens
    /\ (length sent <= 2)%nat /\ (length tokens <= 1)%nat
    /\ Forall (fun req => url req = base_url self +:+ activities_path profile_id
                          /\ params req = page_params ps c) sent.
Proof.
  destruct (get_sends self (activities_path profile_id)
              (Some (page_params ps c)) w)
    as (s & sent & tokens & Hw & Hn & Hk & Hall).
  exists s, sent, tokens. split; [|split; [lia|split; [lia|done]]].
  rewrite <- Hw, fetch_page_eq.
  destruct (get _ _ _ w) as [[[]|e] w1]; try done.
  by destruct (items_lookup "activities" items) as [[]|].
Qed.

(** The requests of a run of the loop: all for the activities path, all
    with the fixed parameters, at most two per page. *)
Lemma activities_loop_requests (fuel : nat) (self : APIClient)
    (profile_id : WiseId) (ps : gmap string value) (c : value) (w : World) :
  exists s sent tokens,
    snd (activities_loop fuel self profile_id ps c w) = after w s sent tokens
    /\ (length sent <= 2 * fuel)%nat /\ (length tokens <= fuel)%nat
    /\ Forall (fun req =>
         url req = base_url self +:+ activities_path profile_id
         /\ forall k, k <> "nextCursor" -> params req !! k = ps !! k) sent.
Proof.
  revert c w. induction fuel as [|fuel IH]; intros c w.
  - exists (server w), [], []. simpl. by rewrite after_nil.
  - simpl.
    destruct (fetch_page_requests self profile_id ps c w)
      as (s1 & sent1 & tokens1 & Hw1 & Hn1 & Hk1 & Hall1).
    assert (Forall (fun req =>
              url req = base_url self +:+ activities_path profile_id
              /\ forall k, k <> "nextCursor" -> params req !! k = ps !! k)
              sent1) as Hfix.
    { eapply Forall_impl; [exact Hall1|]. intros req [-> ->].
      split; [done|]. intros k Hk. unfold page_params.
      destruct (truthy c); [|done]. by rewrite lookup_insert_ne. }
    destruct (fetch_page self profile_id ps c w) as [[[d recs]|e] w1] eqn:Hpage;
      simpl in Hw1; subst w1.
    + apply fetch_page_dict in Hpage as [items ->]. simpl.
      destruct (truthy _); simpl.
      * destruct (IH (match items_lookup "cursor" items with
                      | Some v => v | None => VNone end)
                    (after w s1 sent1 tokens1))
          as (s2 & sent2 & tokens2 & Hw2 & Hn2 & Hk2 & Hall2).
        destruct (activities_loop fuel _ _ _ _ _) as [[rest e] w3].
        simpl in *. subst w3.
        exists s2, (sent1 ++ sent2)%list, (tokens1 ++ tokens2)%list.
        rewrite after_after, !length_app.
        split; [done|]. split; [lia|]. split; [lia|]. by apply Forall_app.
      * exists s1, sent1, tokens1. split; [done|]. split; [lia|].
        split; [lia|done].
    + exists s1, sent1, tokens1. split; [done|]. split; [lia|].
      split; [lia|done].
Qed.

(** X11: the fixed parameters hold exactly the filters given: a
    resource type or a status that is [None] or the empty string is
    left out, the timestamps go through [zulu_time], the size is sent as
    the integer, and no other key is set. *)
Theorem activity_params_filters (f : filters) (w w1 : World)
    (ps : gmap string value) :
  activity_params f w = (Ok ps, w1) ->
  w1 = w
  /\ ps !! "monetaryResourceType"
       = match monetary_resource_type f with
         | Some "" | None => None
         | Some s => Some (VStr s)
         end
  /\ ps !! "status"
       = match status f with
         | Some "" | None => None
         | Some s => Some (VStr s)
         end
  /\ ps !! "since" = (fun t => VStr (zulu_time t)) <$> since f
  /\ ps !! "until" = (fun t => VStr (zulu_time t)) <$> until f
  /\ ps !! "size" = VInt <$> size f
  /\ forall k, k <> "monetaryResourceType" -> k <> "status" -> k <> "since" ->
       k <> "until" -> k <> "size" -> ps !! k = None.
Proof.
  assert (forall o : option string,
            VStr <$> nonempty o
            = match o with Some "" | None => None | Some s => Some (VStr s) end)
    as Hne.
  { intros [[|a s]|]; done. }
  assert (forall (A : Type) (key : string) (g : A -> value) (a : option A),
            set_if key g a (∅ : gmap string value) !! key = g <$> a) as Hset0.
  { intros A key g a. rewrite set_if_same. by destruct a. }
  unfold activity_params. cbv zeta.
  set (p1 := set_if "monetaryResourceType" _ _ _).
  set (p2 := set_if "status" _ _ p1).
  set (p3 := set_if "since" _ _ p2).
  set (p4 := set_if "until" _ _ p3).
  assert (p4 !! "monetaryResourceType"
          = VStr <$> nonempty (monetary_resource_type f)) as H1.
  { subst p4 p3 p2 p1. rewrite !set_if_other by done. apply Hset0. }
  assert (p4 !! "status" = VStr <$> nonempty (status f)) as H2.
  { subst p4 p3 p2. rewrite !set_if_other by done. rewrite set_if_same.
    destruct (nonempty (status f)); [done|].
    subst p1. by rewrite set_if_other. }
  assert (p4 !! "since" = (fun t => VStr (zulu_time t)) <$> since f) as H3.
  { subst p4 p3. rewrite !set_if_other by done. rewrite set_if_same.
    destruct (since f); [done|]. subst p2 p1. by rewrite !set_if_other. }
  assert (p4 !! "until" = (fun t => VStr (zulu_time t)) <$> until f) as H4.
  { subst p4. rewrite set_if_same.
    destruct (until f); [done|]. subst p3 p2 p1. by rewrite !set_if_other. }
  assert (forall k, k <> "monetaryResourceType" -> k <> "status" ->
            k <> "since" -> k <> "until" -> p4 !! k = None) as H5.
  { intros k Hk1 Hk2 Hk3 Hk4. subst p4 p3 p2 p1.
    by rewrite !set_if_other. }
  rewrite Hne in H1, H2.
  destruct (size f) as [z|].
  - destruct (negb _); [done|]. intros [= <- <-].
    split; [done|].
    rewrite !lookup_insert_ne by done. rewrite lookup_insert_eq.
    repeat (split; [done|]).
    intros k Hk1 Hk2 Hk3 Hk4 Hk5. rewrite lookup_insert_ne by done.
    by apply H5.
  - intros [= <- <-]. split; [done|]. repeat (split; [done|]).
    split; [by apply H5|].
    intros k Hk1 Hk2 Hk3 Hk4 _. by apply H5.
Qed.

(** X12: every request of a run of the paginator, on every page and
    on every replay, asks for [/v1/profiles/<profile>/activities] on the
    client's base URL and carries the same filters: the parameters other
    than [nextCursor] are the fixed ones built from the arguments.  A
    run over at most [fuel] pages sends at most two requests per page
    and signs at most once per page. *)
Theorem get_activities_requests (fuel : nat) (self : APIClient)
    (profile_id : WiseId) (f : filters) (w : World) :
  exists s sent tokens,
    snd (get_activities fuel self profile_id f w) = after w s sent tokens
    /\ (length sent <= 2 * fuel)%nat /\ (length tokens <= fuel)%nat
    /\ Forall (fun req =>
         url req = base_url self +:+ "/v1/profiles/" +:+ format_id profile_id
                     +:+ "/activities"
         /\ forall ps w1, activity_params f w = (Ok ps, w1) ->
              forall k, k <> "nextCursor" -> params req !! k = ps !! k) sent.
Proof.
  unfold get_activities.
  pose proof (activity_params_pure f w) as Hpure.
  destruct (activity_params f w) as [[ps|e] w1]; simpl in Hpure; subst w1.
  - destruct (activities_loop_requests fuel self profile_id ps VNone w)
      as (s & sent & tokens & Hw & Hn & Hk & Hall).
    exists s, sent, tokens. repeat (split; [done|]).
    eapply Forall_impl; [exact Hall|]. intros req [Hurl Hps].
    split; [done|]. by intros ps' w1 [= <- _].
  - exists (server w), [], []. simpl. rewrite after_nil.
    repeat (split; [done || lia|]). constructor.
Qed.


(** X14: when the request for a later page fails, the run raises that
    failure and the records of the pages before it have been yielded
    already: they are not lost, and nothing more is requested. *)
Theorem page_failure_keeps_records (fuel : nat) (self : APIClient)
    (profile_id : WiseId) (ps : gmap string value) (c : value)
    (w w1 w2 : World) (items : list (string * value)) (recs : list value)
    (e : exn) :
  fetch_page self profile_id ps c w = (Ok (VDict items, recs), w1) ->
  truthy (cursor_of items) = true ->
  fetch_page self profile_id ps (cursor_of items) w1 = (Err e, w2) ->
  activities_loop (S (S fuel)) self profile_id ps c w = (recs, Raised e, w2).
Proof.
  intros Hpage Hgo Hfail.
  rewrite (activities_loop_step _ _ _ _ _ _ _ _ _ Hpage), Hgo.
  simpl. rewrite Hfail. by rewrite app_nil_r.
Qed.

(** X15: a body that decodes to something other than an object stops
    the run with an [AttributeError], and an [activities] field that is
    [null], a boolean or a number with a [TypeError]; in both cases after
    the request, and with no record of that page yielded. *)
Theorem malformed_page (fuel : nat) (self : APIClient) (profile_id : WiseId)
    (ps : gmap string value) (c d : value) (w w1 : World) :
  get self (activities_path profile_id) (Some (page_params ps c)) w
    = (Ok d, w1) ->
  ((forall items, d <> VDict items) ->
     activities_loop (S fuel) self profile_id ps c w
       = ([], Raised AttributeError, w1))
  /\ (forall items v,
        d = VDict items ->
        items_lookup "activities" items = Some v ->
        v = VNone \/ (exists b, v = VBool b) \/ (exists z, v = VInt z) ->
        activities_loop (S fuel) self profile_id ps c w
          = ([], Raised TypeError, w1)).
Proof.
  intros Hget. split.
  - intros Hnot. simpl. rewrite fetch_page_eq, Hget.
    destruct d; try done. by destruct (Hnot items).
  - intros items v -> Hacts Hv. simpl. rewrite fetch_page_eq, Hget, Hacts.
    by destruct Hv as [->|[[b ->]|[z ->]]].
Qed.

(** X16: a challenge in the middle of a pagination is absorbed: the page
    request is replayed once, signed, with the same parameters (the same
    [nextCursor]), and the page's records are those of the replayed
    response. *)
Theorem page_challenge_replayed (self : APIClient) (profile_id : WiseId)
    (ps : gmap string value) (c : value) (w : World) (r1 r2 : Response)
    (s1 s2 : Server) (token : string) (items : list (string * value))
    (recs : list value) :
  let req1 := page_request self profile_id ps c in
  let req2 := replay_request self (activities_path profile_id)
                (Some (page_params ps c)) token in
  serve (server w) req1 = (Replied r1, s1) ->
  sca_required r1 = true ->
  headers r1 !! "x-2fa-approval" = Some token ->
  serve s1 req2 = (Replied r2, s2) ->
  200 <= status_code r2 < 300 ->
  json r2 = Some (VDict items) ->
  items_lookup "activities" items = Some (VList recs) ->
  fetch_page self profile_id ps c w
    = (Ok (VDict items, recs),
       after w s2 [req1; req2] [(signing_key self, token)])
  /\ params req2 = params req1.
Proof.
  cbv zeta. unfold page_request. intros Hr1 Hsca Htok Hr2 Hst Hjs Hacts.
  split; [|done].
  rewrite fetch_page_eq, get_eq. cbv zeta. rewrite Hr1, Hsca, Htok, Hr2.
  destruct (status_code r2 =? 400) eqn:H400; [apply Z.eqb_eq in H400; lia|].
  rewrite conclude_success by done. by rewrite Hjs, Hacts.
Qed.



End PaginatorRuns.

(** * The generator, one [next] at a time *)

Section GeneratorSteps.
Context `{Environment}.

(** While records of the current page are pending, the consumer gets
    them without anything being sent. *)
Lemma gen_take_pending (fuel : nat) (self : APIClient) (profile_id : WiseId)
    (ps : gmap string value) (d : value) (w : World)
    (pending : list value) (n : nat) :
  gen_take (length pending + n) fuel self profile_id
    (GenSuspended ps pending d) w
  = let '(rest, e, st, w') :=
      gen_take n fuel self profile_id (GenSuspended ps [] d) w in
    ((pending ++ rest)%list, e, st, w').
Proof.
  induction pending as [|a pending IH]; simpl.
  - by destruct (gen_take n _ _ _ _ _) as [[[rest e] st] w'].
  - rewrite IH. by destruct (gen_take n _ _ _ _ _) as [[[rest e] st] w'].
Qed.

Lemma gen_take_within_page (fuel : nat) (self : APIClient) (profile_id : WiseId)
    (ps : gmap string value) (d : value) (w : World)
    (pending : list value) (k : nat) :
  (k <= length pending)%nat ->
  gen_take k fuel self profile_id (GenSuspended ps pending d) w
  = (take k pending, Running, GenSuspended ps (drop k pending) d, w).
Proof.
  revert pending. induction k as [|k IH]; intros pending Hk.
  - by rewrite take_0, drop_0.
  - destruct pending as [|a pending]; simpl in Hk; [lia|].
    simpl. by rewrite IH by lia.
Qed.

(** A resumption that reached a [yield], the end or an exception with
    some bound on the pages does the same with a larger bound. *)
Lemma gen_pages_mono (fuel : nat) (self : APIClient) (profile_id : WiseId)
    (ps : gmap string value) (c : value) (w : World) :
  fst (fst (gen_pages fuel self profile_id ps c w)) <> Busy ->
  gen_pages (S fuel) self profile_id ps c w
    = gen_pages fuel self profile_id ps c w.
Proof.
  revert c w. induction fuel as [|fuel IH]; intros c w Hbusy; [done|].
  remember (S fuel) as F eqn:HF. simpl. subst F. simpl in Hbusy.
  simpl (gen_pages (S fuel) _ _ _ _ _).
  destruct (fetch_page self profile_id ps c w) as [[[d recs]|e] w1]; [|done].
  destruct recs as [|a pending]; [|done].
  destruct (dict_get d "cursor" VNone w1) as [[next|e] w2]; [|done].
  destruct (negb (truthy next)); [done|]. by apply IH.
Qed.

Lemma gen_pages_not_busy (fuel : nat) (self : APIClient) (profile_id : WiseId)
    (ps : gmap string value) (c : value) (w w' : World)
    (ys : list value) (e : ending) :
  activities_loop fuel self profile_id ps c w = (ys, e, w') ->
  e <> Running ->
  forall F, (fuel <= F)%nat ->
    fst (fst (gen_pages F self profile_id ps c w)) <> Busy.
Proof.
  revert c w w' ys e. induction fuel as [|fuel IH];
    intros c w w' ys e Hrun Hend F HF.
  - simpl in Hrun. by injection Hrun as <- <- <-.
  - destruct F as [|F]; [lia|]. simpl in *.
    destruct (fetch_page self profile_id ps c w) as [[[d recs]|err] w1];
      [|done].
    destruct recs as [|a pending]; [|done].
    destruct (dict_get d "cursor" VNone w1) as [[next|err] w2]; [|done].
    destruct (negb (truthy next)); [done|].
    destruct (activities_loop fuel self profile_id ps next w2)
      as [[rest e1] w3] eqn:Hrest.
    injection Hrun as <- <- <-.
    eapply IH; [exact Hrest|done|lia].
Qed.

Lemma gen_pages_step (F : nat) (self : APIClient) (profile_id : WiseId)
    (ps : gmap string value) (c : value) (w w1 : World)
    (items : list (string * value)) (recs : list value) :
  fetch_page self profile_id ps c w = (Ok (VDict items, recs), w1) ->
  gen_pages (S F) self profile_id ps c w
    = match recs with
      | a :: pending => (Yielded a, GenSuspended ps pending (VDict items), w1)
      | [] =>
          if truthy (cursor_of items)
          then gen_pages F self profile_id ps (cursor_of items) w1
          else (StopIteration, GenFinished, w1)
      end.
Proof.
  intros Hpage. simpl. rewrite Hpage. destruct recs as [|a pending]; [|done].
  unfold dict_get, ret, cursor_of. by destruct (truthy _).
Qed.

Lemma gen_take_page_end (k F : nat) (self : APIClient) (profile_id : WiseId)
    (ps : gmap string value) (items : list (string * value)) (w : World) :
  gen_take (S k) F self profile_id (GenSuspended ps [] (VDict items)) w
    = if truthy (cursor_of items)
      then gen_take (S k) F self profile_id
             (GenFetching ps (cursor_of items)) w
      else ([], Exhausted, GenFinished, w).
Proof.
  simpl. unfold ret, cursor_of. by destruct (truthy _).
Qed.

(** Consuming the generator from the top of its loop gives the run of
    the loop. *)
Lemma gen_take_loop (fuel : nat) (self : APIClient) (profile_id : WiseId)
    (ps : gmap string value) (c : value) (w w' : World)
    (ys : list value) (e : ending) :
  activities_loop fuel self profile_id ps c w = (ys, e, w') ->
  e <> Running ->
  forall F n, (fuel <= F)%nat -> (length ys < n)%nat ->
    gen_take n F self profile_id (GenFetching ps c) w
      = (ys, e, GenFinished, w').
Proof.
  revert c w w' ys e. induction fuel as [|fuel IH];
    intros c w w' ys e Hrun Hend F n HF Hn.
  - simpl in Hrun. by injection Hrun as <- <- <-.
  - destruct F as [|F]; [lia|]. destruct n as [|n]; [lia|].
    destruct (fetch_page self profile_id ps c w) as [[[d recs]|err] w1]
      eqn:Hpage.
    + destruct (fetch_page_dict _ _ _ _ _ _ _ _ Hpage) as [items ->].
      rewrite (activities_loop_step _ _ _ _ _ _ _ _ _ Hpage) in Hrun.
      change (gen_take (S n) (S F) self profile_id (GenFetching ps c) w)
        with (match gen_pages (S F) self profile_id ps c w with
              | (Yielded v, st1, w1) =>
                  let '(rest, e, st2, w2) :=
                    gen_take n (S F) self profile_id st1 w1 in
                  (v :: rest, e, st2, w2)
              | (StopIteration, st1, w1) => ([], Exhausted, st1, w1)
              | (Raises e, st1, w1) => ([], Raised e, st1, w1)
              | (Busy, st1, w1) => ([], Running, st1, w1)
              end).
      rewrite (gen_pages_step _ _ _ _ _ _ _ _ _ Hpage).
      destruct (truthy (cursor_of items)) eqn:Hnext.
      * destruct (activities_loop fuel self profile_id ps (cursor_of items) w1)
          as [[rest e1] w3] eqn:Hrest.
        injection Hrun as <- <- <-.
        destruct recs as [|a pending].
        -- rewrite <- gen_pages_mono
             by (eapply gen_pages_not_busy; [exact Hrest|done|lia]).
           apply (IH _ _ _ _ _ Hrest Hend (S F) (S n)); [lia|simpl in Hn; lia].
        -- simpl in Hn. rewrite length_app in Hn.
           replace n with (length pending + S (n - length pending - 1))%nat
             by lia.
           rewrite gen_take_pending, gen_take_page_end, Hnext.
           by rewrite (IH _ _ _ _ _ Hrest Hend (S F)) by lia.
      * injection Hrun as <- <- <-.
        destruct recs as [|a pending]; [done|]. simpl in Hn.
        replace n with (length pending + S (n - length pending - 1))%nat
          by lia.
        rewrite gen_take_pending, gen_take_page_end, Hnext.
        by rewrite app_nil_r.
    + simpl in Hrun. rewrite Hpage in Hrun. injection Hrun as <- <- <-.
      simpl. by rewrite Hpage.
Qed.

(** X19: the paginator is lazy.  A consumer that takes [k] records,
    no more than the first page holds, has made the server see the
    request for the first page only: the generator is left suspended
    with the rest of that page, and the page after it has not been
    asked for, whatever the cursor. *)
Theorem gen_take_first_page (fuel k : nat) (self : APIClient)
    (profile_id : WiseId) (f : filters) (ps : gmap string value)
    (d : value) (recs : list value) (w w1 : World) :
  activity_params f w = (Ok ps, w) ->
  fetch_page self profile_id ps VNone w = (Ok (d, recs), w1) ->
  (1 <= k <= length recs)%nat ->
  gen_take k (S fuel) self profile_id (GenCreated f) w
    = (take k recs, Running, GenSuspended ps (drop k recs) d, w1).
Proof.
  intros Hps Hpage Hk.
  destruct k as [|k]; [lia|]. destruct recs as [|a pending]; simpl in Hk; [lia|].
  simpl. rewrite Hps, Hpage. by rewrite gen_take_within_page by lia.
Qed.

(** X20: consuming the generator to its end, one [next] after the
    other, gives the run of the paginator: the same records, the same
    return or exception, the same requests; and the generator is then
    finished. *)
Theorem gen_take_all (fuel : nat) (self : APIClient) (profile_id : WiseId)
    (f : filters) (w w' : World) (ys : list value) (e : ending) :
  get_activities fuel self profile_id f w = (ys, e, w') ->
  e <> Running ->
  forall n, (length ys < n)%nat ->
    gen_take n fuel self profile_id (GenCreated f) w
      = (ys, e, GenFinished, w').
Proof.
  unfold get_activities. intros Hrun Hend n Hn.
  destruct n as [|n]; [lia|]. simpl gen_take. simpl gen_next.
  destruct (activity_params f w) as [[ps|err] w1].
  - pose proof (gen_take_loop _ _ _ _ _ _ _ _ _ Hrun Hend fuel (S n)) as Hgo.
    simpl in Hgo. by apply Hgo.
  - by injection Hrun as <- <- <-.
Qed.


End GeneratorSteps.

(** * The further properties on scripted servers *)

Lemma get_transport_failure_witness :
  @get scripted demo_client "/v1/me" None (@start scripted [])
    = (Err (RequestException "no reply left"),
       after (@start scripted []) []
         [@first_request demo_client "/v1/me" None] []).
Proof.
  apply (proj1 (get_transport_failure (H := scripted) demo_client "/v1/me" None
                  (@start scripted []) "no reply left")).
  reflexivity.
Defined.

Lemma get_challenge_without_token_witness :
  let r1 := mkResponse 403 {[ "x-2fa-approval-result" := "REJECTED" ]} "" None in
  let w := @start scripted [Replied r1; Replied (ok_response (VInt 7))] in
  @get scripted demo_client "/v1/me" None w
    = (Err (KeyError "x-2fa-approval"),
       after w [Replied (ok_response (VInt 7))]
         [@first_request demo_client "/v1/me" None] []).
Proof.
  intros r1 w.
  apply (get_challenge_without_token (H := scripted) demo_client "/v1/me" None
           w r1 [Replied (ok_response (VInt 7))]); reflexivity.
Defined.

Lemma get_http_error_first_witness :
  let r1 := mkResponse 400 ∅ "{}" (Some (VDict [])) in
  let w := @start scripted [Replied r1] in
  @get scripted demo_client "/v1/me" None w
    = (Err (HTTPError r1),
       after w [] [@first_request demo_client "/v1/me" None] []).
Proof.
  intros r1 w.
  apply (get_http_error_first (H := scripted) demo_client "/v1/me" None w r1 []);
    [reflexivity|reflexivity|simpl; lia].
Defined.

Lemma get_http_error_replay_witness :
  let r2 := mkResponse 500 ∅ "oops" None in
  let w := @start scripted [Replied (challenge "tok"); Replied r2] in
  fst (@get scripted demo_client "/v1/me" None w) = Err (HTTPError r2).
Proof.
  intros r2 w.
  rewrite (get_http_error_replay (H := scripted) demo_client "/v1/me" None w
             (challenge "tok") r2 [Replied r2] [] "tok");
    [reflexivity|reflexivity|reflexivity|reflexivity|reflexivity|simpl; lia].
Defined.



Lemma activity_params_filters_witness :
  let f := @mkFilters scripted (Some "BALANCE") (Some "") None
             (Some "2024-01-31T23:59:59Z") (Some 10) in
  let w := @start scripted [] in
  exists ps,
    @activity_params scripted f w = (Ok ps, w)
    /\ ps !! "monetaryResourceType" = Some (VStr "BALANCE")
    /\ ps !! "status" = None
    /\ ps !! "until" = Some (VStr "2024-01-31T23:59:59Z")
    /\ ps !! "size" = Some (VInt 10).
Proof.
  intros f w.
  exists (<["size" := VInt 10]>
            (<["until" := VStr "2024-01-31T23:59:59Z"]>
               (<["monetaryResourceType" := VStr "BALANCE"]> ∅))).
  split; [reflexivity|].
  destruct (activity_params_filters (H := scripted) f w w
              (<["size" := VInt 10]>
                 (<["until" := VStr "2024-01-31T23:59:59Z"]>
                    (<["monetaryResourceType" := VStr "BALANCE"]> ∅)))
              eq_refl)
    as (_ & H1 & H2 & _ & H4 & H5 & _).
  repeat split; assumption.
Defined.

Lemma page_failure_keeps_records_witness :
  let r1 := ok_response (page [VStr "a"] (VStr "c1")) in
  let r2 := mkResponse 500 ∅ "oops" None in
  let w := @start scripted [Replied r1; Replied r2] in
  fst (@activities_loop scripted 5 demo_client (IdInt 42) ∅ VNone w)
    = ([VStr "a"], Raised (HTTPError r2)).
Proof.
  intros r1 r2 w.
  rewrite (page_failure_keeps_records (H := scripted) 3 demo_client (IdInt 42)
             ∅ VNone w
             (after w [Replied r2]
                [@page_request demo_client (IdInt 42) ∅ VNone] [])
             (after w []
                [@page_request demo_client (IdInt 42) ∅ VNone;
                 @page_request demo_client (IdInt 42) ∅ (VStr "c1")] [])
             [("activities", VList [VStr "a"]); ("cursor", VStr "c1")]
             [VStr "a"] (HTTPError r2));
    reflexivity.
Defined.

Lemma malformed_page_witness :
  let w := @start scripted [Replied (ok_response (VList [VInt 1]))] in
  @activities_loop scripted 3 demo_client (IdInt 42) ∅ VNone w
    = ([], Raised AttributeError,
       after w [] [@page_request demo_client (IdInt 42) ∅ VNone] []).
Proof.
  intros w.
  apply (proj1 (malformed_page (H := scripted) 2 demo_client (IdInt 42) ∅ VNone
                  (VList [VInt 1]) w
                  (after w [] [@page_request demo_client (IdInt 42) ∅ VNone] [])
                  eq_refl)).
  intros items. discriminate.
Defined.

Lemma page_challenge_replayed_witness :
  let r2 := ok_response (page [VStr "a"] VNone) in
  let w := @start scripted [Replied (challenge "tok"); Replied r2] in
  @fetch_page scripted demo_client (IdInt 42) ∅ VNone w
    = (Ok (page [VStr "a"] VNone, [VStr "a"]),
       after w []
         [@page_request demo_client (IdInt 42) ∅ VNone;
          @replay_request scripted demo_client
            (@activities_path (IdInt 42)) (Some ∅) "tok"]
         [("secret", "tok")]).
Proof.
  intros r2 w.
  refine (proj1 (page_challenge_replayed (H := scripted) demo_client (IdInt 42)
                   ∅ VNone w (challenge "tok") r2 [Replied r2] [] "tok"
                   [("activities", VList [VStr "a"]); ("cursor", VNone)]
                   [VStr "a"] _ _ _ _ _ _ _)); try reflexivity.
  simpl. lia.
Defined.



Lemma gen_take_first_page_witness :
  let body := page [VStr "a"; VStr "b"; VStr "c"] (VStr "c1") in
  let w := @start scripted [Replied (ok_response body); Replied (ok_response body)] in
  @gen_take scripted 2 3 demo_client (IdInt 42) (GenCreated no_filters) w
    = ([VStr "a"; VStr "b"], Running, GenSuspended ∅ [VStr "c"] body,
       after w [Replied (ok_response body)]
         [@page_request demo_client (IdInt 42) ∅ VNone] []).
Proof.
  intros body w.
  apply (gen_take_first_page (H := scripted) 2 2 demo_client (IdInt 42)
           no_filters ∅ body [VStr "a"; VStr "b"; VStr "c"] w);
    [reflexivity|reflexivity|simpl; lia].
Defined.

Lemma gen_take_all_witness :
  let r1 := ok_response (page [VStr "a"] (VStr "c1")) in
  let r2 := ok_response (page [VStr "b"] VNone) in
  let w := @start scripted [Replied r1; Replied r2] in
  @gen_take scripted 3 2 demo_client (IdInt 42) (GenCreated no_filters) w
    = ([VStr "a"; VStr "b"], Exhausted, GenFinished,
       after w []
         [@page_request demo_client (IdInt 42) ∅ VNone;
          @page_request demo_client (IdInt 42) ∅ (VStr "c1")] []).
Proof.
  intros r1 r2 w.
  apply (gen_take_all (H := scripted) 2 demo_client (IdInt 42) no_filters w);
    [reflexivity|discriminate|simpl; lia].
Defined.

